(** * iambic: the Okta group template reconciler

    A shallow embedding of [iambic/okta/group/models.py]: the data model of
    the Okta group template, the per-organization reconciler
    [OktaGroupTemplate._apply_to_account] and the fan-out
    [OktaGroupTemplate.apply], followed by the statements of the
    specification that concern them.

    The coroutines are embedded in a state-and-exception monad.  The state
    carries the provider side (the "world"), the template object [self]
    (which the coroutines mutate) and the list of calls made so far, grouped
    by the [await] that issued them. *)

From Stdlib Require Import List String ZArith Bool Lia.
Import ListNotations.
Local Open Scope string_scope.
Local Open Scope list_scope.

(** ** Data model *)

(** [class UserStatus(Enum)] *)
Inductive UserStatus : Type := active | provisioned | deprovisioned.

(** [class UserSimple(BaseModel, ExpiryModel)]; the two last fields are the
    ones inherited from [ExpiryModel]. *)
Record UserSimple : Type := {
  username : string;
  status : option UserStatus;
  u_expires_at : option Z;
  u_deleted : bool
}.

(** [iambic.okta.models.Group], with the fields that [get_group_template]
    reads from it. *)
Record Group : Type := {
  g_idp_name : string;
  g_name : string;
  g_group_id : string;
  g_description : string;
  g_members : list UserSimple
}.

(** [class OktaGroupTemplateProperties(ExpiryModel, BaseModel)]; the
    untyped [extra] attribute is never read by the reconciler and is left
    out. *)
Record OktaGroupTemplateProperties : Type := {
  name : string;
  owner : option string;
  idp_name : string;
  group_id : string;
  description : string;
  members : list UserSimple;
  p_expires_at : option Z;
  p_deleted : bool
}.

(** [class OktaGroupTemplate(BaseTemplate, ExpiryModel)].  [file_path]
    comes from [BaseTemplate], [expires_at] and [deleted] from
    [ExpiryModel]; [force_delete] is the [forceDelete] flag of the
    specification's Template. *)
Record OktaGroupTemplate : Type := {
  file_path : string;
  properties : OktaGroupTemplateProperties;
  expires_at : option Z;
  deleted : bool;
  force_delete : bool
}.

Definition template_type : string := "NOQ::Okta::Group".

(** The [resource_type] property of both the template and its
    properties. *)
Definition resource_type : string := "okta:group".

(** [iambic.core.context.ExecutionContext] *)
Record ExecutionContext : Type := { execute : bool }.

(** [iambic.config.models.OktaOrganization] and [Config], as far as the
    reconciler looks into them. *)
Record OktaOrganization : Type := { org_idp_name : string }.

Record Config : Type := { okta_organizations : list OktaOrganization }.

(** [iambic.core.models.ProposedChangeType]: the reconciler names
    [CREATE]; the two other kinds are those of the specification. *)
Inductive ProposedChangeType : Type := CREATE | UPDATE | DELETE.

(** Values carried by a proposed change: a string field or a list of
    usernames. *)
Inductive Value : Type :=
| VString (s : string)
| VUsers (l : list string).

(** [iambic.core.models.ProposedChange].  The reconciler fills the first
    three fields; [field], [before] and [after] are the optional ones of
    the specification, filled by the helpers. *)
Record ProposedChange : Type := {
  change_type : ProposedChangeType;
  pc_resource_id : string;
  pc_resource_type : string;
  field : option string;
  before : option Value;
  after : option Value
}.

(** The dictionary built by [apply_resource_dict]. *)
Record ResourceDict : Type := {
  rd_name : string;
  rd_description : string;
  rd_members : list UserSimple
}.

(** [iambic.core.models.AccountChangeDetails], with the attributes the
    reconciler sets. *)
Record AccountChangeDetails : Type := {
  account : string;
  resource_id : string;
  current_value : option Group;
  new_value : ResourceDict;
  proposed_changes : list ProposedChange
}.

(** [iambic.core.models.TemplateChangeDetails], with the attributes
    [apply] sets; its [proposed_changes] attribute holds the
    per-organization details. *)
Record TemplateChangeDetails : Type := {
  t_resource_id : string;
  t_resource_type : string;
  template_path : string;
  t_proposed_changes : list AccountChangeDetails
}.

(** ** Python helpers *)

(** [any(xs)]: some element is truthy. *)
Definition py_any {A : Type} (truthy : A -> bool) (xs : list A) : bool :=
  existsb truthy xs.

(** Truth value of a list: it is not empty. *)
Definition list_truthy {A : Type} (xs : list A) : bool :=
  match xs with [] => false | _ :: _ => true end.

(** Truth value of a [ProposedChange]: a model object defines neither
    [__bool__] nor [__len__], so it is always truthy. *)
Definition change_truthy (_ : ProposedChange) : bool := true.

(** ** Calls, outcomes and the coroutine monad *)

(** The calls the reconciler makes, with the arguments it passes
    ([log_params] only feeds the logger and is left out). *)
Inductive Call : Type :=
| get_group_call (gid gname : string) (org : OktaOrganization)
| create_group_call (group_name idp description : string)
    (org : OktaOrganization) (ctx : ExecutionContext)
| remove_expired_resources_call (ctx : ExecutionContext)
| update_group_name_call (current_group : option Group) (new_name : string)
    (org : OktaOrganization) (ctx : ExecutionContext)
| update_group_description_call (current_group : option Group)
    (new_description : string) (org : OktaOrganization) (ctx : ExecutionContext)
| update_group_members_call (current_group : option Group)
    (new_members : list UserSimple) (org : OktaOrganization)
    (ctx : ExecutionContext)
| maybe_delete_group_call (delete : bool) (current_group : option Group)
    (org : OktaOrganization) (ctx : ExecutionContext)
| template_delete_call (path : string).

(** A Python exception, by its message. *)
Definition Error : Type := string.

(** What awaiting a coroutine gives: a value, or a raised exception. *)
Inductive Outcome (A : Type) : Type :=
| Returned (a : A)
| Raised (e : Error).
Arguments Returned {A} a.
Arguments Raised {A} e.

(** The functions of [iambic.okta.group.utils] that the reconciler
    imports, over a provider side of type [W]. *)
Record Adapter (W : Type) : Type := {
  get_group : string -> string -> OktaOrganization ->
              W -> Outcome (option Group) * W;
  create_group : string -> string -> string -> OktaOrganization ->
                 ExecutionContext -> W -> Outcome (option Group) * W;
  update_group_name : option Group -> string -> OktaOrganization ->
                      ExecutionContext -> W -> Outcome (list ProposedChange) * W;
  update_group_description : option Group -> string -> OktaOrganization ->
                      ExecutionContext -> W -> Outcome (list ProposedChange) * W;
  update_group_members : option Group -> list UserSimple -> OktaOrganization ->
                      ExecutionContext -> W -> Outcome (list ProposedChange) * W;
  maybe_delete_group : bool -> option Group -> OktaOrganization ->
                      ExecutionContext -> W -> Outcome (list ProposedChange) * W
}.
Arguments get_group {W} _ _ _ _ _.
Arguments create_group {W} _ _ _ _ _ _ _.
Arguments update_group_name {W} _ _ _ _ _ _.
Arguments update_group_description {W} _ _ _ _ _ _.
Arguments update_group_members {W} _ _ _ _ _ _.
Arguments maybe_delete_group {W} _ _ _ _ _ _.

(** The state a coroutine runs in.  [trace] lists the calls made, one
    inner list per [await]: a singleton for an awaited call, the whole
    argument list for an [asyncio.gather]. *)
Record St (W : Type) : Type := {
  world : W;
  self : OktaGroupTemplate;
  trace : list (list Call)
}.
Arguments world {W} _.
Arguments self {W} _.
Arguments trace {W} _.
Arguments Build_St {W} _ _ _.

Definition M (W A : Type) : Type := St W -> Outcome A * St W.

Definition ret {W A : Type} (a : A) : M W A := fun st => (Returned a, st).

Definition bind {W A B : Type} (m : M W A) (k : A -> M W B) : M W B :=
  fun st =>
    match m st with
    | (Returned a, st') => k a st'
    | (Raised e, st') => (Raised e, st')
    end.

Declare Scope coroutine_scope.
Delimit Scope coroutine_scope with co.
Notation "x <- m ;; k" := (bind m (fun x => k))
  (at level 61, m at next level, right associativity) : coroutine_scope.
Notation "m ;;; k" := (bind m (fun _ => k))
  (at level 61, right associativity) : coroutine_scope.
Local Open Scope coroutine_scope.

(** Reading [self]. *)
Definition get_self {W : Type} : M W OktaGroupTemplate :=
  fun st => (Returned (self st), st).

(** [await f(...)]: the call is recorded and runs on the provider side. *)
Definition await {W A : Type} (c : Call) (f : W -> Outcome A * W) : M W A :=
  fun st =>
    let (o, w') := f (world st) in
    (o, Build_St w' (self st) (trace st ++ [[c]])).

(** The result of [asyncio.gather]: the list of values in argument order,
    or the exception of a task that raised (here the first one in argument
    order). *)
Fixpoint join {A : Type} (outs : list (Outcome A)) : Outcome (list A) :=
  match outs with
  | [] => Returned []
  | Returned a :: rest =>
      match join rest with
      | Returned l => Returned (a :: l)
      | Raised e => Raised e
      end
  | Raised e :: _ => Raised e
  end.

(** Every task handed to [gather] is started, whatever happens to its
    siblings; their effects on the provider side are taken in argument
    order. *)
Fixpoint run_tasks {W A : Type} (tasks : list (W -> Outcome A * W)) (w : W)
  : list (Outcome A) * W :=
  match tasks with
  | [] => ([], w)
  | f :: rest =>
      let (o, w1) := f w in
      let (os, w2) := run_tasks rest w1 in
      (o :: os, w2)
  end.

(** [await asyncio.gather] over a list of calls to the adapter. *)
Definition gather {W A : Type} (tasks : list (Call * (W -> Outcome A * W)))
  : M W (list A) :=
  fun st =>
    let (outs, w') := run_tasks (map snd tasks) (world st) in
    (join outs, Build_St w' (self st) (trace st ++ [map fst tasks])).

(** The same over coroutines of the reconciler itself.  They run
    concurrently, each against the organization it was given; the model
    takes them in argument order, each one on the state left by the
    previous one, and lets all of them run whatever their siblings do. *)
Fixpoint run_coroutines {W A : Type} (ms : list (M W A)) (st : St W)
  : list (Outcome A) * St W :=
  match ms with
  | [] => ([], st)
  | m :: rest =>
      let (o, st1) := m st in
      let (os, st2) := run_coroutines rest st1 in
      (o :: os, st2)
  end.

Definition gather_coroutines {W A : Type} (ms : list (M W A)) : M W (list A) :=
  fun st =>
    let (outs, st') := run_coroutines ms st in
    (join outs, st').

(** ** Expiry *)

(** Modelled from the spec: [ExpiryModel]'s lifecycle rule lives in
    [iambic.core.models], which is not part of the sources at hand.  An
    entity is deleted iff its explicit flag is already set or the current
    time is past its [expires_at]. *)
Definition evaluateLifecycle (now : Z) (expiry : option Z) (flag : bool) : bool :=
  flag || match expiry with
          | Some e => (e <? now)%Z
          | None => false
          end.

Definition user_expired (now : Z) (u : UserSimple) : bool :=
  evaluateLifecycle now (u_expires_at u) (u_deleted u).

(** Modelled from the spec: [BaseModel.remove_expired_resources] lives in
    [iambic.core.models] too.  It sets the derived [deleted] flag of the
    template and of its properties and removes the expired members from
    the in-memory member list; it calls no provider, whatever the
    context. *)
Definition remove_expired (now : Z) (ctx : ExecutionContext)
    (t : OktaGroupTemplate) : OktaGroupTemplate :=
  let p := properties t in
  {| file_path := file_path t;
     properties :=
       {| name := name p;
          owner := owner p;
          idp_name := idp_name p;
          group_id := group_id p;
          description := description p;
          members := filter (fun u => negb (user_expired now u)) (members p);
          p_expires_at := p_expires_at p;
          p_deleted := evaluateLifecycle now (p_expires_at p) (p_deleted p) |};
     expires_at := expires_at t;
     deleted := evaluateLifecycle now (expires_at t) (deleted t);
     force_delete := force_delete t |}.

(** ** The reconciler *)

Section Reconciler.

Context {W : Type}.
Variable A : Adapter W.
Variable now : Z.

(** [await self.remove_expired_resources(context)] *)
Definition remove_expired_resources (ctx : ExecutionContext) : M W unit :=
  fun st =>
    (Returned tt,
     Build_St (world st) (remove_expired now ctx (self st))
              (trace st ++ [[remove_expired_resources_call ctx]])).

(** Modelled from the spec: [BaseTemplate.delete] lives in
    [iambic.core.models], which is not part of the sources at hand.  It
    destroys the template's backing record ("the external store then
    removes the persisted record").  The call is recorded with the path
    it is made for; the store itself is not part of the state, so what a
    removal does to a record that is already gone is left out. *)
Definition self_delete : M W unit :=
  fun st =>
    (Returned tt,
     Build_St (world st) (self st)
              (trace st ++ [[template_delete_call (file_path (self st))]])).

(** [apply_resource_dict].  The dictionary holds the template's own
    member list, read here when the dictionary is built. *)
Definition apply_resource_dict (t : OktaGroupTemplate)
    (okta_organization : OktaOrganization) (context : ExecutionContext)
  : ResourceDict :=
  {| rd_name := name (properties t);
     rd_description := description (properties t);
     rd_members := members (properties t) |}.

Definition set_current_value (cd : AccountChangeDetails) (g : option Group)
  : AccountChangeDetails :=
  match g with
  | Some _ =>
      {| account := account cd;
         resource_id := resource_id cd;
         current_value := g;
         new_value := new_value cd;
         proposed_changes := proposed_changes cd |}
  | None => cd
  end.

(** [change_details.proposed_changes.append] and [.extend] *)
Definition extend_changes (cd : AccountChangeDetails)
    (l : list ProposedChange) : AccountChangeDetails :=
  {| account := account cd;
     resource_id := resource_id cd;
     current_value := current_value cd;
     new_value := new_value cd;
     proposed_changes := proposed_changes cd ++ l |}.

(** The [ProposedChange] built on lines 180-184. *)
Definition create_change (t : OktaGroupTemplate) : ProposedChange :=
  {| change_type := CREATE;
     pc_resource_id := group_id (properties t);
     pc_resource_type := resource_type;
     field := None;
     before := None;
     after := None |}.

(** The four tasks put in [tasks] on lines 209-242, their arguments read
    from [self] after [remove_expired_resources] has run. *)
Definition field_tasks (t : OktaGroupTemplate) (current_group : option Group)
    (okta_organization : OktaOrganization) (context : ExecutionContext)
  : list (Call * (W -> Outcome (list ProposedChange) * W)) :=
  [ (update_group_name_call current_group (name (properties t))
       okta_organization context,
     update_group_name A current_group (name (properties t))
       okta_organization context);
    (update_group_description_call current_group (description (properties t))
       okta_organization context,
     update_group_description A current_group (description (properties t))
       okta_organization context);
    (update_group_members_call current_group (members (properties t))
       okta_organization context,
     update_group_members A current_group (members (properties t))
       okta_organization context);
    (maybe_delete_group_call (deleted t) current_group
       okta_organization context,
     maybe_delete_group A (deleted t) current_group
       okta_organization context) ].

(** Lines 205-266 of [_apply_to_account]: everything after the group is
    known to exist. *)
Definition reconcile_fields (okta_organization : OktaOrganization)
    (context : ExecutionContext) (change_details : AccountChangeDetails)
    (current_group : option Group) : M W AccountChangeDetails :=
  remove_expired_resources context ;;;
  t <- get_self ;;
  changes_made <- gather (field_tasks t current_group okta_organization context) ;;
  let change_details :=
    if py_any list_truthy changes_made
    then extend_changes change_details (List.concat changes_made)
    else change_details in
  if execute context then
    t' <- get_self ;;
    (if deleted t' then self_delete else ret tt) ;;;
    ret change_details
  else
    ret change_details.

(** [OktaGroupTemplate._apply_to_account] *)
Definition _apply_to_account (okta_organization : OktaOrganization)
    (context : ExecutionContext) : M W AccountChangeDetails :=
  t <- get_self ;;
  let proposed_group := apply_resource_dict t okta_organization context in
  let change_details :=
    {| account := idp_name (properties t);
       resource_id := group_id (properties t);
       current_value := None;
       new_value := proposed_group;
       proposed_changes := [] |} in
  current_group <- await
    (get_group_call (group_id (properties t)) (name (properties t))
       okta_organization)
    (get_group A (group_id (properties t)) (name (properties t))
       okta_organization) ;;
  let change_details := set_current_value change_details current_group in
  match current_group with
  | None =>
      let change_details := extend_changes change_details [create_change t] in
      if negb (execute context) then
        ret change_details
      else
        current_group <- await
          (create_group_call (name (properties t)) (idp_name (properties t))
             (description (properties t)) okta_organization context)
          (create_group A (name (properties t)) (idp_name (properties t))
             (description (properties t)) okta_organization context) ;;
        let change_details := set_current_value change_details current_group in
        reconcile_fields okta_organization context change_details current_group
  | Some _ =>
      reconcile_fields okta_organization context change_details current_group
  end.

(** The outcomes of the per-organization coroutines that [apply] hands
    to [gather], in the order of [config.okta_organizations]. *)
Definition account_outcomes (config : Config) (context : ExecutionContext)
    (st : St W) : list (Outcome AccountChangeDetails) :=
  fst (run_coroutines
         (map (fun okta_organization =>
                 _apply_to_account okta_organization context)
              (okta_organizations config)) st).

(** [OktaGroupTemplate.apply] *)
Definition apply (config : Config) (context : ExecutionContext)
  : M W TemplateChangeDetails :=
  t <- get_self ;;
  let template_changes :=
    {| t_resource_id := group_id (properties t);
       t_resource_type := template_type;
       template_path := file_path t;
       t_proposed_changes := [] |} in
  let tasks :=
    map (fun okta_organization => _apply_to_account okta_organization context)
        (okta_organizations config) in
  account_changes <- gather_coroutines tasks ;;
  ret {| t_resource_id := t_resource_id template_changes;
         t_resource_type := t_resource_type template_changes;
         template_path := template_path template_changes;
         t_proposed_changes :=
           filter (fun account_change =>
                     py_any change_truthy (proposed_changes account_change))
                  account_changes |}.

End Reconciler.

(** ** The Okta side *)

(** The functions of [iambic.okta.group.utils] are not among the sources;
    the reconciler above is stated over any [Adapter].  This module gives
    the adapter that the specification describes, over an explicit
    provider: the groups each organization holds, the requests made to
    it, and the requests it is set to reject. *)
Module Okta.

Inductive OpKind : Type := fetch_op | create_op | update_op | delete_op.

Definition kind_eqb (a b : OpKind) : bool :=
  match a, b with
  | fetch_op, fetch_op | create_op, create_op
  | update_op, update_op | delete_op, delete_op => true
  | _, _ => false
  end.

(** A request sent to the identity platform. *)
Inductive ProviderOp : Type :=
| op_fetch (tenant gid gname : string)
| op_create (tenant : string) (g : Group)
| op_update_name (tenant gid new_name : string)
| op_update_description (tenant gid new_description : string)
| op_update_members (tenant gid : string) (users : list string)
| op_delete (tenant gid : string).

Definition is_fetch (op : ProviderOp) : bool :=
  match op with op_fetch _ _ _ => true | _ => false end.

Definition is_delete (op : ProviderOp) : bool :=
  match op with op_delete _ _ => true | _ => false end.

Record World : Type := {
  live : list (string * Group);
  failing : list (string * OpKind);
  oplog : list ProviderOp
}.

Definition rejects (w : World) (tenant : string) (k : OpKind) : bool :=
  existsb (fun tk => String.eqb (fst tk) tenant && kind_eqb (snd tk) k)
          (failing w).

(** Modelled from the spec: one provider request of the absent SDK
    layer.  It is recorded; it either fails with a [ProviderError]
    ("any adapter call fails (network, permission, rate limit)") or
    answers [result] and leaves the groups [live']. *)
Definition request {R : Type} (w : World) (tenant : string) (k : OpKind)
    (op : ProviderOp) (result : R) (live' : list (string * Group))
  : Outcome R * World :=
  if rejects w tenant k then
    (Raised "ProviderError",
     {| live := live w; failing := failing w; oplog := oplog w ++ [op] |})
  else
    (Returned result,
     {| live := live'; failing := failing w; oplog := oplog w ++ [op] |}).

Definition group_matches (gid gname : string) (g : Group) : bool :=
  if String.eqb gid EmptyString then String.eqb (g_name g) gname
  else String.eqb (g_group_id g) gid.

Definition lookup (w : World) (tenant gid gname : string) : option Group :=
  option_map snd
    (find (fun tg => String.eqb (fst tg) tenant && group_matches gid gname (snd tg))
          (live w)).

(** Modelled from the spec: [get_group] is absent; it is
    [fetch(resourceId, tenant) -> CurrentState | Absent]. *)
Definition get_group (gid gname : string) (org : OktaOrganization) (w : World)
  : Outcome (option Group) * World :=
  request w (org_idp_name org) fetch_op
          (op_fetch (org_idp_name org) gid gname)
          (lookup w (org_idp_name org) gid gname) (live w).

(** Modelled from the spec: [create_group] is absent; it is
    [create(desiredFields, tenant) -> CreatedState], failing with a
    [ProviderError] on rejection, and makes no provider call when
    [execute] is false.  The identifier of the new group is the usual
    [{idp-name}-{name}]. *)
Definition create_group (gname idp descr : string) (org : OktaOrganization)
    (ctx : ExecutionContext) (w : World) : Outcome (option Group) * World :=
  if execute ctx then
    let g := {| g_idp_name := idp;
                g_name := gname;
                g_group_id := idp ++ "-" ++ gname;
                g_description := descr;
                g_members := [] |} in
    request w (org_idp_name org) create_op (op_create (org_idp_name org) g)
            (Some g) (live w ++ [(org_idp_name org, g)])
  else (Returned None, w).

Definition update_change (g : Group) (fld : string) (old new : Value)
  : ProposedChange :=
  {| change_type := UPDATE;
     pc_resource_id := g_group_id g;
     pc_resource_type := resource_type;
     field := Some fld;
     before := Some old;
     after := Some new |}.

Definition delete_change (g : Group) : ProposedChange :=
  {| change_type := DELETE;
     pc_resource_id := g_group_id g;
     pc_resource_type := resource_type;
     field := None;
     before := None;
     after := None |}.

Definition same_users (l1 l2 : list string) : bool :=
  forallb (fun u => existsb (String.eqb u) l2) l1
  && forallb (fun u => existsb (String.eqb u) l1) l2.

(** The diff of one field between the fetched group and the template. *)
Definition name_diff (g : Group) (new_name : string) : list ProposedChange :=
  if String.eqb (g_name g) new_name then []
  else [update_change g "name" (VString (g_name g)) (VString new_name)].

Definition description_diff (g : Group) (new_description : string)
  : list ProposedChange :=
  if String.eqb (g_description g) new_description then []
  else [update_change g "description" (VString (g_description g))
          (VString new_description)].

Definition members_diff (g : Group) (new_members : list UserSimple)
  : list ProposedChange :=
  if same_users (map username (g_members g)) (map username new_members) then []
  else [update_change g "members" (VUsers (map username (g_members g)))
          (VUsers (map username new_members))].

Definition delete_diff (delete : bool) (g : Group) : list ProposedChange :=
  if delete then [delete_change g] else [].

Definition rewrite_group (w : World) (tenant : string) (g : Group)
    (change : Group -> Group) : list (string * Group) :=
  map (fun tg =>
         if String.eqb (fst tg) tenant
            && String.eqb (g_group_id (snd tg)) (g_group_id g)
         then (fst tg, change (snd tg)) else tg)
      (live w).

Definition drop_group (w : World) (tenant : string) (g : Group)
  : list (string * Group) :=
  filter (fun tg =>
            negb (String.eqb (fst tg) tenant
                  && String.eqb (g_group_id (snd tg)) (g_group_id g)))
         (live w).

(** Modelled from the spec: the way the absent [update_group_*] and
    [maybe_delete_group] act on a computed diff.  "If [context.execute],
    invoke the corresponding adapter update call and collect its
    resulting [ProposedChange] list; if not, compute the same diff and
    synthesize the equivalent list without calling the adapter."  An
    empty diff is a no-op. *)
Definition enact (diff : list ProposedChange) (k : OpKind) (op : ProviderOp)
    (live' : list (string * Group)) (org : OktaOrganization)
    (ctx : ExecutionContext) (w : World)
  : Outcome (list ProposedChange) * World :=
  match diff with
  | [] => (Returned [], w)
  | _ :: _ =>
      if execute ctx then request w (org_idp_name org) k op diff live'
      else (Returned diff, w)
  end.

Definition no_group : Error := "the group does not exist".

Definition with_name (v : string) (g : Group) : Group :=
  {| g_idp_name := g_idp_name g; g_name := v; g_group_id := g_group_id g;
     g_description := g_description g; g_members := g_members g |}.

Definition with_description (v : string) (g : Group) : Group :=
  {| g_idp_name := g_idp_name g; g_name := g_name g;
     g_group_id := g_group_id g;
     g_description := v; g_members := g_members g |}.

Definition with_members (v : list UserSimple) (g : Group) : Group :=
  {| g_idp_name := g_idp_name g; g_name := g_name g;
     g_group_id := g_group_id g;
     g_description := g_description g; g_members := v |}.

(** Modelled from the spec: [update_group_name] is absent. *)
Definition update_group_name (current : option Group) (new_name : string)
    (org : OktaOrganization) (ctx : ExecutionContext) (w : World)
  : Outcome (list ProposedChange) * World :=
  match current with
  | None => (Raised no_group, w)
  | Some g =>
      enact (name_diff g new_name) update_op
            (op_update_name (org_idp_name org) (g_group_id g) new_name)
            (rewrite_group w (org_idp_name org) g (with_name new_name))
            org ctx w
  end.

(** Modelled from the spec: [update_group_description] is absent. *)
Definition update_group_description (current : option Group)
    (new_description : string) (org : OktaOrganization)
    (ctx : ExecutionContext) (w : World)
  : Outcome (list ProposedChange) * World :=
  match current with
  | None => (Raised no_group, w)
  | Some g =>
      enact (description_diff g new_description) update_op
            (op_update_description (org_idp_name org) (g_group_id g)
               new_description)
            (rewrite_group w (org_idp_name org) g
               (with_description new_description))
            org ctx w
  end.

(** Modelled from the spec: [update_group_members] is absent. *)
Definition update_group_members (current : option Group)
    (new_members : list UserSimple) (org : OktaOrganization)
    (ctx : ExecutionContext) (w : World)
  : Outcome (list ProposedChange) * World :=
  match current with
  | None => (Raised no_group, w)
  | Some g =>
      enact (members_diff g new_members) update_op
            (op_update_members (org_idp_name org) (g_group_id g)
               (map username new_members))
            (rewrite_group w (org_idp_name org) g (with_members new_members))
            org ctx w
  end.

(** Modelled from the spec: [maybe_delete_group] is absent.  It is
    given the template's [deleted] flag, the fetched group and the
    context, and nothing else of the template. *)
Definition maybe_delete_group (delete : bool) (current : option Group)
    (org : OktaOrganization) (ctx : ExecutionContext) (w : World)
  : Outcome (list ProposedChange) * World :=
  if delete then
    match current with
    | None => (Raised no_group, w)
    | Some g =>
        enact (delete_diff delete g) delete_op
              (op_delete (org_idp_name org) (g_group_id g))
              (drop_group w (org_idp_name org) g)
              org ctx w
    end
  else (Returned [], w).

Definition adapter : Adapter World :=
  Build_Adapter World get_group create_group update_group_name
                update_group_description update_group_members
                maybe_delete_group.

End Okta.

(** ** Schedules *)

(** What the event loop can observe of a call: it begins, and later it
    ends. *)
Inductive Event : Type :=
| Begin (c : Call)
| End (c : Call).

Definition call_of (e : Event) : Call :=
  match e with Begin c | End c => c end.

Definition is_begin (e : Event) : bool :=
  match e with Begin _ => true | End _ => false end.

(** The runs of one [asyncio.gather]: [gather_schedule todo flight s]
    holds when [s] is a possible sequence of events for the tasks [todo]
    still to be started and the tasks [flight] already started.  Tasks are
    started in argument order; a started task may end at any later
    moment. *)
Inductive gather_schedule : list Call -> list Call -> list Event -> Prop :=
| gs_done : gather_schedule [] [] []
| gs_begin (c : Call) (todo flight : list Call) (s : list Event) :
    gather_schedule todo (flight ++ [c]) s ->
    gather_schedule (c :: todo) flight (Begin c :: s)
| gs_end (c : Call) (todo f1 f2 : list Call) (s : list Event) :
    gather_schedule todo (f1 ++ f2) s ->
    gather_schedule todo (f1 ++ c :: f2) (End c :: s).

(** The runs of a coroutine whose awaits are [tr]: an [await] is over
    before the next one is reached. *)
Inductive schedule : list (list Call) -> list Event -> Prop :=
| sch_nil : schedule [] []
| sch_await (batch : list Call) (rest : list (list Call))
    (s1 s2 : list Event) :
    gather_schedule batch [] s1 ->
    schedule rest s2 ->
    schedule (batch :: rest) (s1 ++ s2).

(** The schedule in which, under every await, all the tasks are started
    before any of them ends. *)
Definition eager_schedule (tr : list (list Call)) : list Event :=
  flat_map (fun batch => map Begin batch ++ map End batch) tr.

(** [none_after p q s]: in [s], no event satisfying [q] comes after an
    event satisfying [p]. *)
Fixpoint none_after (p q : Event -> bool) (s : list Event) : bool :=
  match s with
  | [] => true
  | e :: rest =>
      (if p e then negb (existsb q rest) else true) && none_after p q rest
  end.

(** The same on the awaits of a trace, where two calls of one [gather]
    count as unordered. *)
Fixpoint batches_apart (p q : Call -> bool) (tr : list (list Call)) : bool :=
  match tr with
  | [] => true
  | b :: rest =>
      (if existsb p b
       then negb (existsb q b) && negb (existsb q (List.concat rest))
       else true)
      && batches_apart p q rest
  end.

(** ** Classes of calls *)

Definition is_get_call (c : Call) : bool :=
  match c with get_group_call _ _ _ => true | _ => false end.

Definition is_create_call (c : Call) : bool :=
  match c with create_group_call _ _ _ _ _ => true | _ => false end.

Definition is_field_update_call (c : Call) : bool :=
  match c with
  | update_group_name_call _ _ _ _
  | update_group_description_call _ _ _ _
  | update_group_members_call _ _ _ _ => true
  | _ => false
  end.

Definition is_delete_call (c : Call) : bool :=
  match c with maybe_delete_group_call _ _ _ _ => true | _ => false end.

Definition is_template_delete_call (c : Call) : bool :=
  match c with template_delete_call _ => true | _ => false end.

(** The context a call was given, if it takes one. *)
Definition call_context (c : Call) : option ExecutionContext :=
  match c with
  | get_group_call _ _ _ => None
  | create_group_call _ _ _ _ ctx => Some ctx
  | remove_expired_resources_call ctx => Some ctx
  | update_group_name_call _ _ _ ctx => Some ctx
  | update_group_description_call _ _ _ ctx => Some ctx
  | update_group_members_call _ _ _ ctx => Some ctx
  | maybe_delete_group_call _ _ _ ctx => Some ctx
  | template_delete_call _ => None
  end.

(** A call that a detect run may make: not [create_group], not
    [self.delete()], and never with a context other than the run's. *)
Definition detect_call (c : Call) : bool :=
  negb (is_create_call c) && negb (is_template_delete_call c) &&
  match call_context c with
  | Some ctx => negb (execute ctx)
  | None => true
  end.

(** The state a detect run may reach, when [R] bounds what it may do to
    the provider side: the provider side moved along [R], and every call
    added to the trace is one a detect run may make. *)
Definition detect_step {W : Type} (R : W -> W -> Prop) (st st' : St W) : Prop :=
  R (world st) (world st') /\
  exists new, trace st' = trace st ++ new /\
              forallb detect_call (List.concat new) = true.

(** On the Okta side: the groups are untouched and every request made was
    a fetch. *)
Definition only_fetched (w w' : Okta.World) : Prop :=
  Okta.live w' = Okta.live w /\
  Okta.failing w' = Okta.failing w /\
  exists ops, Okta.oplog w' = Okta.oplog w ++ ops /\
              forallb Okta.is_fetch ops = true.

(** The requests made between two states of the Okta side were [ops]. *)
Definition requested (ops : list Okta.ProviderOp) (w w' : Okta.World) : Prop :=
  Okta.failing w' = Okta.failing w /\
  Okta.oplog w' = Okta.oplog w ++ ops.

(** The template with its [force_delete] flag set to [b]. *)
Definition with_force_delete (b : bool) (t : OktaGroupTemplate)
  : OktaGroupTemplate :=
  {| file_path := file_path t;
     properties := properties t;
     expires_at := expires_at t;
     deleted := deleted t;
     force_delete := b |}.

(** The field-update pass is over when the delete is dispatched: no event
    of a field update comes after the beginning of
    [maybe_delete_group]. *)
Definition delete_after_field_pass (s : list Event) : bool :=
  none_after (fun e => is_begin e && is_delete_call (call_of e))
             (fun e => is_field_update_call (call_of e)) s.

(** The delete is dispatched after the field updates were dispatched. *)
Definition delete_dispatched_last (s : list Event) : bool :=
  none_after (fun e => is_begin e && is_delete_call (call_of e))
             (fun e => is_begin e && is_field_update_call (call_of e)) s.

(** Fetching and creating are over when the field updates and the delete
    are dispatched. *)
Definition fetch_and_create_first (s : list Event) : bool :=
  none_after (fun e => is_field_update_call (call_of e)
                       || is_delete_call (call_of e))
             (fun e => is_get_call (call_of e) || is_create_call (call_of e)) s.

(** ** Initial states and sample data *)

Definition start {W : Type} (w : W) (t : OktaGroupTemplate) : St W :=
  Build_St w t [].

Definition detect : ExecutionContext := {| execute := false |}.
Definition enact_ctx : ExecutionContext := {| execute := true |}.

Module Sample.

Definition alice : UserSimple :=
  {| username := "alice"; status := Some active;
     u_expires_at := None; u_deleted := false |}.

Definition bob : UserSimple :=
  {| username := "bob"; status := Some active;
     u_expires_at := None; u_deleted := false |}.

Definition props (ms : list UserSimple) : OktaGroupTemplateProperties :=
  {| name := "eng"; owner := None; idp_name := "dev";
     group_id := "dev-eng"; description := "Engineering";
     members := ms; p_expires_at := None; p_deleted := false |}.

Definition template (ms : list UserSimple) (del force : bool)
  : OktaGroupTemplate :=
  {| file_path := "okta/groups/dev/eng.yaml";
     properties := props ms;
     expires_at := None;
     deleted := del;
     force_delete := force |}.

Definition dev : OktaOrganization := {| org_idp_name := "dev" |}.
Definition prod : OktaOrganization := {| org_idp_name := "prod" |}.

Definition eng (tenant : string) (ms : list UserSimple) : Group :=
  {| g_idp_name := tenant; g_name := "eng"; g_group_id := "dev-eng";
     g_description := "Engineering"; g_members := ms |}.

Definition empty_world : Okta.World :=
  {| Okta.live := []; Okta.failing := []; Okta.oplog := [] |}.

Definition world_with (gs : list (string * Group))
    (bad : list (string * Okta.OpKind)) : Okta.World :=
  {| Okta.live := gs; Okta.failing := bad; Okta.oplog := [] |}.

(** One organization holds the group with [alice] in it; the template
    wants [alice] and [bob]. *)
Definition w_present : Okta.World :=
  world_with [("dev", eng "dev" [alice])] [].

Definition t_two : OktaGroupTemplate := template [alice; bob] false false.

Definition t_one : OktaGroupTemplate := template [alice] false false.

(** The same group, and a template that is deleted but not
    force-deleted. *)
Definition t_deleted : OktaGroupTemplate := template [alice] true false.

(** An organization that rejects creations. *)
Definition w_no_create : Okta.World := world_with [] [("dev", Okta.create_op)].

(** Two organizations; the second one rejects fetches. *)
Definition w_prod_down : Okta.World :=
  world_with [("dev", eng "dev" [alice])] [("prod", Okta.fetch_op)].

(** A deleted template that also wants [bob] in the group. *)
Definition t_deleted_two : OktaGroupTemplate := template [alice; bob] true false.

(** A template that is deleted and force-deleted. *)
Definition t_gone : OktaGroupTemplate := template [alice] true true.

Definition both : Config := {| okta_organizations := [dev; prod] |}.

Definition only_dev : Config := {| okta_organizations := [dev] |}.

End Sample.

(** ** Importing a group *)

(** [get_group_template]: the template generated from a group read at
    the provider.  Each member is dumped to JSON and parsed back as a
    [UserSimple]; the attributes the constructor is not given keep their
    defaults (no owner, no expiry, not deleted). *)
Definition get_group_template (group : Group) : OktaGroupTemplate :=
  let file_name := (g_name group ++ ".yaml")%string in
  let group_members := g_members group in
  {| file_path :=
       ("okta/groups/" ++ g_idp_name group ++ "/" ++ file_name)%string;
     properties :=
       {| name := g_name group;
          owner := None;
          idp_name := g_idp_name group;
          group_id := g_group_id group;
          description := g_description group;
          members := group_members;
          p_expires_at := None;
          p_deleted := false |};
     expires_at := None;
     deleted := false;
     force_delete := false |}.

(** The character ["/"] (code 47). *)
Definition slash : Ascii.ascii :=
  Ascii.Ascii true true true true false true false false.

(** The string holds no ["/"]. *)
Fixpoint no_slash (s : string) : bool :=
  match s with
  | EmptyString => true
  | String c rest => negb (Ascii.eqb c slash) && no_slash rest
  end.

(** ** Counting over a run *)

Definition is_returned {A : Type} (o : Outcome A) : bool :=
  match o with Returned _ => true | Raised _ => false end.

(** The state each organization's coroutine starts from: the first one
    from the state [apply] was called in, each next one from the state
    its predecessor left. *)
Fixpoint account_states {W : Type} (A : Adapter W) (now : Z)
    (context : ExecutionContext) (orgs : list OktaOrganization) (st : St W)
  : list (St W) :=
  match orgs with
  | [] => []
  | okta_organization :: rest =>
      st :: account_states A now context rest
              (snd (_apply_to_account A now okta_organization context st))
  end.

(** The calls of a trace that satisfy [p], in the order they were made. *)
Definition calls_where (p : Call -> bool) (tr : list (list Call)) : list Call :=
  filter p (List.concat tr).

(** Two states of the template that name the same resource and the same
    file. *)
Definition same_resource (t t' : OktaGroupTemplate) : Prop :=
  group_id (properties t') = group_id (properties t) /\
  name (properties t') = name (properties t) /\
  idp_name (properties t') = idp_name (properties t) /\
  description (properties t') = description (properties t) /\
  file_path t' = file_path t.

(** More sample data: a group read at the provider, as in [Sample]. *)
Module Imported.

Definition ops : Group := Sample.eng "dev" [Sample.alice; Sample.bob].

Definition w_ops : Okta.World := Sample.world_with [("dev", ops)] [].

(** An organization that rejects fetches. *)
Definition w_down : Okta.World :=
  Sample.world_with [] [("dev", Okta.fetch_op)].

(** Both organizations hold the group. *)
Definition w_both : Okta.World :=
  Sample.world_with [("dev", Sample.eng "dev" [Sample.alice]);
                     ("prod", Sample.eng "prod" [Sample.alice])] [].

End Imported.

(** ** Basic facts *)

Lemma py_any_changes (l : list ProposedChange) :
  py_any change_truthy l = list_truthy l.
Proof. destruct l; reflexivity. Qed.

Lemma list_truthy_false {X : Type} (l : list X) :
  list_truthy l = false <-> l = [].
Proof. destruct l; simpl; split; congruence. Qed.

Lemma list_truthy_true {X : Type} (l : list X) :
  list_truthy l = true <-> l <> [].
Proof. destruct l; simpl; split; congruence. Qed.

(** Guarding [extend] with [any] changes nothing: when no task returned
    anything, there is nothing to append. *)
Lemma concat_not_truthy (ls : list (list ProposedChange)) :
  py_any list_truthy ls = false -> List.concat ls = [].
Proof.
  induction ls as [|l ls IH]; simpl; [reflexivity|].
  intros H. apply orb_false_iff in H as [Hl Hls].
  apply list_truthy_false in Hl. subst l. simpl. auto.
Qed.

Lemma join_map_returned {X : Type} (l : list X) :
  join (map Returned l) = Returned l.
Proof.
  induction l as [|x l IH]; simpl; [reflexivity|]. rewrite IH. reflexivity.
Qed.

Lemma join_returned {X : Type} (outs : list (Outcome X)) (l : list X) :
  join outs = Returned l -> outs = map Returned l.
Proof.
  revert l. induction outs as [|o outs IH]; intros l; simpl.
  - intros H. injection H as <-. reflexivity.
  - destruct o as [a|e]; [|discriminate].
    destruct (join outs) as [l'|e'] eqn:E; [|discriminate].
    intros H. injection H as <-. simpl. f_equal. apply IH. reflexivity.
Qed.

Lemma join_raised {X : Type} (outs : list (Outcome X)) (e : Error) :
  join outs = Raised e -> In (Raised e) outs.
Proof.
  induction outs as [|o outs IH]; simpl; [discriminate|].
  destruct o as [a|e0].
  - destruct (join outs) as [l'|e'] eqn:E; [discriminate|].
    intros H. inversion H; subst. right. apply IH. reflexivity.
  - intros H. left. congruence.
Qed.

(** One task that raises is enough for [gather] to raise. *)
Lemma join_of_raised {X : Type} (outs : list (Outcome X)) (e : Error) :
  In (Raised e) outs -> exists e', join outs = Raised e'.
Proof.
  induction outs as [|o outs IH]; simpl; [tauto|].
  intros [H|H].
  - subst o. eauto.
  - destruct o as [a|e0]; [|eauto].
    destruct (IH H) as [e' He']. rewrite He'. eauto.
Qed.

Lemma run_coroutines_length {W X : Type} (ms : list (M W X)) (st : St W) :
  List.length (fst (run_coroutines ms st)) = List.length ms.
Proof.
  revert st. induction ms as [|m ms IH]; intros st; simpl; [reflexivity|].
  destruct (m st) as [o st1]. specialize (IH st1).
  destruct (run_coroutines ms st1) as [os st2]. simpl in *. congruence.
Qed.

Ltac run_monad :=
  unfold bind, get_self, ret, await, remove_expired_resources, self_delete,
    gather; simpl.

Section ReconcilerFacts.

Context {W : Type}.
Variable A : Adapter W.
Variable now : Z.

Lemma apply_unfold (config : Config) (context : ExecutionContext) (st : St W) :
  fst (apply A now config context st) =
  match join (account_outcomes A now config context st) with
  | Returned account_changes =>
      Returned
        {| t_resource_id := group_id (properties (self st));
           t_resource_type := template_type;
           template_path := file_path (self st);
           t_proposed_changes :=
             filter (fun d => py_any change_truthy (proposed_changes d))
                    account_changes |}
  | Raised e => Raised e
  end.
Proof.
  unfold apply, account_outcomes, bind, get_self, gather_coroutines, ret.
  destruct (run_coroutines _ st) as [outs st']. simpl.
  destruct (join outs); reflexivity.
Qed.

(** Each outcome is that of the reconciler run for the organization at
    the same position, started from the state its predecessor left. *)
Lemma run_accounts_pointwise (context : ExecutionContext)
    (orgs : list OktaOrganization) (st : St W) :
  fst (run_coroutines
         (map (fun org => _apply_to_account A now org context) orgs) st)
  = map (fun os => fst (_apply_to_account A now (fst os) context (snd os)))
        (combine orgs (account_states A now context orgs st)).
Proof.
  revert st. induction orgs as [|org orgs IH]; intros st;
    cbn [map run_coroutines account_states combine].
  - reflexivity.
  - destruct (_apply_to_account A now org context st) as [o st1] eqn:E.
    cbn [fst snd]. specialize (IH st1).
    destruct (run_coroutines _ st1) as [os st2].
    cbn [fst snd map] in *. rewrite IH, E. reflexivity.
Qed.

Lemma account_states_length (context : ExecutionContext)
    (orgs : list OktaOrganization) (st : St W) :
  List.length (account_states A now context orgs st) = List.length orgs.
Proof.
  revert st. induction orgs as [|org orgs IH]; intros st; cbn;
    [reflexivity|]. rewrite IH. reflexivity.
Qed.

Lemma map_returned_pointwise {X Y : Type} (f : X -> Outcome Y)
    (l : list X) (l' : list Y) :
  map f l = map Returned l' ->
  Forall2 (fun x y => f x = Returned y) l l'.
Proof.
  revert l'. induction l as [|x l IH]; intros [|y l'] H;
    try discriminate H; constructor.
  - injection H as H _. exact H.
  - injection H as _ H. auto.
Qed.

(** C9. When [apply] returns its report, [tenantChanges] holds exactly
    the per-organization details whose list of proposed changes is not
    empty; there was one reconciliation per configured organization. *)
Theorem report_holds_the_nonempty_details (config : Config)
    (context : ExecutionContext) (st : St W) (report : TemplateChangeDetails) :
  fst (apply A now config context st) = Returned report ->
  exists account_changes,
    account_outcomes A now config context st = map Returned account_changes /\
    List.length account_changes = List.length (okta_organizations config) /\
    forall d, In d (t_proposed_changes report) <->
              In d account_changes /\ proposed_changes d <> [].
Proof.
  rewrite apply_unfold.
  destruct (join (account_outcomes A now config context st))
    as [account_changes|e] eqn:J; [|discriminate].
  intros H. injection H as <-. simpl.
  apply join_returned in J.
  exists account_changes. split; [assumption|]. split.
  - assert (List.length (account_outcomes A now config context st)
            = List.length (okta_organizations config)) as L.
    { unfold account_outcomes. rewrite run_coroutines_length.
      apply length_map. }
    rewrite J, length_map in L. assumption.
  - intros d. rewrite filter_In, py_any_changes, list_truthy_true. tauto.
Qed.

(** C10. The report lists the details in the order of
    [config.okta_organizations]: the per-organization results are, one
    for one and in that order, what the reconciliation of each
    configured organization returned, each started from the state its
    predecessor left, and the report is that list restricted to the
    non-empty ones. *)
Theorem report_follows_configured_order (config : Config)
    (context : ExecutionContext) (st : St W) (report : TemplateChangeDetails) :
  fst (apply A now config context st) = Returned report ->
  exists account_changes,
    Forall2 (fun os d =>
               fst (_apply_to_account A now (fst os) context (snd os))
                 = Returned d)
            (combine (okta_organizations config)
                     (account_states A now context (okta_organizations config)
                        st))
            account_changes /\
    List.length account_changes = List.length (okta_organizations config) /\
    t_proposed_changes report =
      filter (fun d => list_truthy (proposed_changes d)) account_changes.
Proof.
  rewrite apply_unfold.
  destruct (join (account_outcomes A now config context st))
    as [account_changes|e] eqn:J; [|discriminate].
  intros H. injection H as <-. simpl.
  apply join_returned in J.
  unfold account_outcomes in J. rewrite run_accounts_pointwise in J.
  exists account_changes. split; [|split].
  - apply map_returned_pointwise. exact J.
  - apply (f_equal (@List.length _)) in J.
    rewrite !length_map, length_combine, account_states_length,
      Nat.min_id in J.
    symmetry. exact J.
  - apply filter_ext. intros d. apply py_any_changes.
Qed.

(** C3, as the code has it.  When the reconciliation of one configured
    organization raises, [apply] raises too, with the error of one of
    the failed reconciliations: no report is returned, neither for the
    organizations that succeeded nor for the one that failed. *)
Theorem failed_tenant_fails_the_run (config : Config)
    (context : ExecutionContext) (st : St W) (e : Error) :
  In (Raised e) (account_outcomes A now config context st) ->
  exists e',
    fst (apply A now config context st) = Raised e' /\
    In (Raised e') (account_outcomes A now config context st).
Proof.
  intros H. rewrite apply_unfold.
  destruct (join_of_raised _ _ H) as [e' J]. rewrite J.
  exists e'. split; [reflexivity|]. apply join_raised. assumption.
Qed.

(** C4. When [get_group] finds no group and [execute] is false, the
    reconciler returns with exactly one proposed change, of type
    [CREATE], having made no call but [get_group]. *)
Theorem absent_group_in_detect_mode (okta_organization : OktaOrganization)
    (context : ExecutionContext) (st : St W) (w1 : W) :
  execute context = false ->
  get_group A (group_id (properties (self st))) (name (properties (self st)))
            okta_organization (world st) = (Returned None, w1) ->
  exists cd,
    _apply_to_account A now okta_organization context st =
      (Returned cd,
       Build_St w1 (self st)
         (trace st ++
            [[get_group_call (group_id (properties (self st)))
                (name (properties (self st))) okta_organization]])) /\
    proposed_changes cd = [create_change (self st)] /\
    change_type (create_change (self st)) = CREATE.
Proof.
  intros Hx Hg. unfold _apply_to_account. run_monad.
  rewrite Hg. simpl. rewrite Hx. simpl.
  eexists. split; [reflexivity|]. split; reflexivity.
Qed.

(** C7, as the code has it.  When [get_group] finds no group, [execute]
    is true and [create_group] raises, the reconciliation of that
    organization stops there: it raises the same error instead of
    returning its details, and has made no call after [create_group]. *)
Theorem failed_create_raises (okta_organization : OktaOrganization)
    (context : ExecutionContext) (st : St W) (w1 w2 : W) (e : Error) :
  execute context = true ->
  get_group A (group_id (properties (self st))) (name (properties (self st)))
            okta_organization (world st) = (Returned None, w1) ->
  create_group A (name (properties (self st))) (idp_name (properties (self st)))
               (description (properties (self st))) okta_organization context
               w1 = (Raised e, w2) ->
  _apply_to_account A now okta_organization context st =
    (Raised e,
     Build_St w2 (self st)
       (trace st ++
          [[get_group_call (group_id (properties (self st)))
              (name (properties (self st))) okta_organization]] ++
          [[create_group_call (name (properties (self st)))
              (idp_name (properties (self st)))
              (description (properties (self st))) okta_organization
              context]])).
Proof.
  intros Hx Hg Hc. unfold _apply_to_account. run_monad.
  rewrite Hg. simpl. rewrite Hx. simpl. rewrite Hc. simpl.
  rewrite <- app_assoc. reflexivity.
Qed.

Lemma extend_changes_nil (cd : AccountChangeDetails) :
  extend_changes cd [] = cd.
Proof. destruct cd. unfold extend_changes. simpl. rewrite app_nil_r. reflexivity. Qed.

(** What [reconcile_fields] does, in one equation: the four tasks run,
    and [self.delete()] follows when they all returned, [execute] is
    true and the template is deleted. *)
Lemma reconcile_fields_run (org : OktaOrganization) (ctx : ExecutionContext)
    (cd : AccountChangeDetails) (cg : option Group) (st : St W) :
  let t' := remove_expired now ctx (self st) in
  let tasks := field_tasks A t' cg org ctx in
  let r := run_tasks (map snd tasks) (world st) in
  reconcile_fields A now org ctx cd cg st =
    (match join (fst r) with
     | Returned changes_made =>
         Returned (extend_changes cd (List.concat changes_made))
     | Raised e => Raised e
     end,
     Build_St (snd r) t'
       ((trace st ++ [[remove_expired_resources_call ctx]]) ++ [map fst tasks]
        ++ match join (fst r) with
           | Returned _ =>
               if execute ctx && deleted t'
               then [[template_delete_call (file_path t')]] else []
           | Raised _ => []
           end)).
Proof.
  intros t' tasks r. subst r t'.
  unfold reconcile_fields, bind, remove_expired_resources, get_self, gather.
  cbn [world self trace]. fold tasks.
  destruct (run_tasks (map snd tasks) (world st)) as [outs w'].
  cbn [fst snd]. destruct (join outs) as [changes_made|e].
  - assert ((if py_any list_truthy changes_made
             then extend_changes cd (List.concat changes_made) else cd)
            = extend_changes cd (List.concat changes_made)) as E.
    { destruct (py_any list_truthy changes_made) eqn:P; [reflexivity|].
      rewrite (concat_not_truthy _ P), extend_changes_nil. reflexivity. }
    rewrite E. unfold self_delete, ret.
    destruct (execute ctx); cbn [andb world self trace].
    + destruct (deleted (remove_expired now ctx (self st)));
        cbn [world self trace].
      * rewrite <- !app_assoc. reflexivity.
      * rewrite app_nil_r. reflexivity.
    + rewrite app_nil_r. reflexivity.
  - rewrite app_nil_r. reflexivity.
Qed.

(** *** Detect mode, for any adapter

    [R] is what a detect run may do to the provider side: whatever
    [get_group] does, and whatever the four helpers do when they are
    given a context whose [execute] is false. *)
Section DetectMode.

Variable R : W -> W -> Prop.
Hypothesis R_refl : forall w, R w w.
Hypothesis R_trans : forall w1 w2 w3, R w1 w2 -> R w2 w3 -> R w1 w3.
Hypothesis get_R :
  forall gid gname org w, R w (snd (get_group A gid gname org w)).
Hypothesis name_R :
  forall cg v org ctx w,
    execute ctx = false -> R w (snd (update_group_name A cg v org ctx w)).
Hypothesis description_R :
  forall cg v org ctx w,
    execute ctx = false ->
    R w (snd (update_group_description A cg v org ctx w)).
Hypothesis members_R :
  forall cg v org ctx w,
    execute ctx = false -> R w (snd (update_group_members A cg v org ctx w)).
Hypothesis delete_R :
  forall d cg org ctx w,
    execute ctx = false -> R w (snd (maybe_delete_group A d cg org ctx w)).

Lemma detect_step_refl (st : St W) : detect_step R st st.
Proof.
  split; [apply R_refl|]. exists []. rewrite app_nil_r. auto.
Qed.

Lemma detect_step_trans (st1 st2 st3 : St W) :
  detect_step R st1 st2 -> detect_step R st2 st3 -> detect_step R st1 st3.
Proof.
  intros [H1 (n1 & T1 & F1)] [H2 (n2 & T2 & F2)]. split; [eauto|].
  exists (n1 ++ n2). rewrite T2, T1, app_assoc. split; [reflexivity|].
  rewrite concat_app, forallb_app, F1, F2. reflexivity.
Qed.

Lemma field_tasks_detect (t : OktaGroupTemplate) (cg : option Group)
    (org : OktaOrganization) (ctx : ExecutionContext) (w : W) :
  execute ctx = false ->
  R w (snd (run_tasks (map snd (field_tasks A t cg org ctx)) w)).
Proof.
  intros Hx. unfold field_tasks. cbn [map snd run_tasks].
  pose proof (name_R cg (name (properties t)) org ctx w Hx) as H1.
  destruct (update_group_name A cg _ org ctx w) as [o1 w1].
  pose proof (description_R cg (description (properties t)) org ctx w1 Hx)
    as H2.
  destruct (update_group_description A cg _ org ctx w1) as [o2 w2].
  pose proof (members_R cg (members (properties t)) org ctx w2 Hx) as H3.
  destruct (update_group_members A cg _ org ctx w2) as [o3 w3].
  pose proof (delete_R (deleted t) cg org ctx w3 Hx) as H4.
  destruct (maybe_delete_group A _ cg org ctx w3) as [o4 w4].
  cbn [snd] in *. eauto.
Qed.

Lemma account_detect (org : OktaOrganization) (ctx : ExecutionContext)
    (st : St W) :
  execute ctx = false ->
  detect_step R st (snd (_apply_to_account A now org ctx st)).
Proof.
  intros Hx. unfold _apply_to_account, bind, get_self, await.
  pose proof (get_R (group_id (properties (self st)))
                    (name (properties (self st))) org (world st)) as Hg.
  destruct (get_group A _ _ org (world st)) as [[[g|]|e] w1];
    cbn [snd] in Hg.
  - rewrite reconcile_fields_run. cbn [snd world self trace].
    rewrite Hx. cbn [andb].
    split; cbn [world trace].
    + eapply R_trans; [exact Hg|]. apply field_tasks_detect. assumption.
    + eexists. rewrite <- !app_assoc. split; [reflexivity|].
      destruct (join _); cbn; rewrite Hx; reflexivity.
  - rewrite Hx. cbn [negb]. unfold ret. cbn [snd]. split; cbn [world trace].
    + assumption.
    + eexists. split; reflexivity.
  - cbn [snd]. split; cbn [world trace].
    + assumption.
    + eexists. split; reflexivity.
Qed.

Lemma accounts_detect (ctx : ExecutionContext)
    (orgs : list OktaOrganization) (st : St W) :
  execute ctx = false ->
  detect_step R st
    (snd (run_coroutines
            (map (fun org => _apply_to_account A now org ctx) orgs) st)).
Proof.
  intros Hx. revert st.
  induction orgs as [|org orgs IH]; intros st; cbn [map run_coroutines].
  - apply detect_step_refl.
  - pose proof (account_detect org ctx st Hx) as H1.
    destruct (_apply_to_account A now org ctx st) as [o st1].
    specialize (IH st1).
    destruct (run_coroutines _ st1) as [os st2].
    cbn [snd] in *. eapply detect_step_trans; eauto.
Qed.

Lemma apply_detect (config : Config) (ctx : ExecutionContext) (st : St W) :
  execute ctx = false ->
  detect_step R st (snd (apply A now config ctx st)).
Proof.
  intros Hx. unfold apply, bind, get_self, gather_coroutines, ret.
  pose proof (accounts_detect ctx (okta_organizations config) st Hx) as H.
  destruct (run_coroutines _ st) as [outs st'].
  cbn [snd] in H. destruct (join outs); cbn [snd]; assumption.
Qed.

End DetectMode.

(** What [detect_call] says of a list of calls. *)
Lemma detect_calls_facts (l : list Call) :
  forallb detect_call l = true ->
  filter is_create_call l = [] /\
  filter is_template_delete_call l = [] /\
  forall c ctx, In c l -> call_context c = Some ctx -> execute ctx = false.
Proof.
  induction l as [|c l IH]; cbn [forallb filter].
  - intros _. repeat split. intros c ctx [].
  - rewrite andb_true_iff. intros [Hc Hl].
    destruct (IH Hl) as (F1 & F2 & F3).
    unfold detect_call in Hc.
    apply andb_true_iff in Hc as [Hc Hctx].
    apply andb_true_iff in Hc as [Hcreate Hdel].
    apply negb_true_iff in Hcreate, Hdel.
    rewrite Hcreate, Hdel. split; [exact F1|]. split; [exact F2|].
    intros c' ctx [<-|Hin] E; [|eauto].
    rewrite E in Hctx. apply negb_true_iff. exact Hctx.
Qed.

(** C1, as the code has it.  A run of [apply] in detect mode, over any
    configuration, any template and any adapter, never calls
    [create_group] and never calls [self.delete()]; the update and
    delete helpers are called, and every call that takes a context is
    given one whose [execute] is false. *)
Theorem detect_run_creates_nothing_and_passes_the_detect_context
    (config : Config) (t : OktaGroupTemplate) (w : W) :
  let tr := trace (snd (apply A now config detect (start w t))) in
  calls_where is_create_call tr = [] /\
  calls_where is_template_delete_call tr = [] /\
  forall c ctx,
    In c (List.concat tr) -> call_context c = Some ctx -> execute ctx = false.
Proof.
  intros tr.
  assert (detect_step (fun _ _ => True) (start w t)
            (snd (apply A now config detect (start w t))))
    as [_ (new & T & F)]
    by (apply apply_detect; auto).
  cbn [start trace app] in T. subst tr. rewrite T.
  exact (detect_calls_facts _ F).
Qed.

(** [self.delete()] is reached only at the end of a reconciliation
    that returns, in apply mode, for a deleted template. *)
Lemma self_delete_reached (org : OktaOrganization) (ctx : ExecutionContext)
    (w : W) (t : OktaGroupTemplate) :
  let r := _apply_to_account A now org ctx (start w t) in
  existsb is_template_delete_call (List.concat (trace (snd r))) = true ->
  execute ctx = true /\
  evaluateLifecycle now (expires_at t) (deleted t) = true /\
  exists cd, fst r = Returned cd.
Proof.
  intros r. subst r.
  unfold _apply_to_account, bind, get_self, await, start.
  cbn [world self trace].
  destruct (get_group A _ _ org w) as [[[g|]|e] w1].
  - rewrite reconcile_fields_run. cbn [world self trace fst snd].
    destruct (join _) as [l|e]; [|cbn; discriminate].
    change (deleted (remove_expired now ctx t))
      with (evaluateLifecycle now (expires_at t) (deleted t)).
    destruct (execute ctx); [|cbn; discriminate].
    destruct (evaluateLifecycle now (expires_at t) (deleted t));
      [|cbn; discriminate].
    intros _. eauto.
  - destruct (execute ctx) eqn:Hx; cbn [negb world self trace];
      [|cbn; discriminate].
    destruct (create_group A _ _ _ org ctx w1) as [[cg|e] w2];
      [|cbn; discriminate].
    rewrite reconcile_fields_run. cbn [world self trace fst snd].
    destruct (join _) as [l|e]; [|cbn; discriminate].
    change (deleted (remove_expired now ctx t))
      with (evaluateLifecycle now (expires_at t) (deleted t)).
    rewrite Hx.
    destruct (evaluateLifecycle now (expires_at t) (deleted t));
      [|cbn; discriminate].
    intros _. eauto.
  - cbn. discriminate.
Qed.

(** The reconciler never reads [force_delete]. *)
Lemma force_delete_not_consulted (org : OktaOrganization)
    (ctx : ExecutionContext) (w : W) (t : OktaGroupTemplate) (b : bool) :
  let r := _apply_to_account A now org ctx (start w t) in
  let r' := _apply_to_account A now org ctx (start w (with_force_delete b t)) in
  fst r' = fst r /\ world (snd r') = world (snd r) /\
  trace (snd r') = trace (snd r).
Proof.
  intros r r'. subst r r'.
  unfold _apply_to_account, bind, get_self, await, start.
  cbn [world self trace properties with_force_delete].
  destruct (get_group A _ _ org w) as [[[g|]|e] w1].
  - rewrite !reconcile_fields_run. repeat split; reflexivity.
  - destruct (execute ctx) eqn:Hx; cbn [negb world self trace properties
                                        with_force_delete].
    + destruct (create_group A _ _ _ org ctx w1) as [[cg|e] w2].
      * rewrite !reconcile_fields_run. repeat split; reflexivity.
      * repeat split; reflexivity.
    + repeat split; reflexivity.
  - repeat split; reflexivity.
Qed.

(** Whenever [get_group] finds no group, the details returned carry a
    [CREATE] entry, whether the template is deleted or not: the
    reconciler decides on creation before it looks at [self.deleted]. *)
Lemma absent_group_always_proposes_create (org : OktaOrganization)
    (ctx : ExecutionContext) (w w1 : W) (t : OktaGroupTemplate)
    (cd : AccountChangeDetails) :
  get_group A (group_id (properties t)) (name (properties t)) org w
    = (Returned None, w1) ->
  fst (_apply_to_account A now org ctx (start w t)) = Returned cd ->
  In (create_change t) (proposed_changes cd).
Proof.
  intros Hg.
  unfold _apply_to_account, bind, get_self, await, start.
  cbn [world self trace]. rewrite Hg.
  destruct (execute ctx) eqn:Hx; cbn [negb world self trace].
  - destruct (create_group A _ _ _ org ctx w1) as [[cg|e] w2];
      [|discriminate].
    rewrite reconcile_fields_run. cbn [fst].
    destruct (join _) as [l|e]; [|discriminate].
    intros H. injection H as <-. cbn [proposed_changes extend_changes].
    destruct cg; cbn; auto.
  - unfold ret. cbn [fst]. intros H. injection H as <-. cbn. auto.
Qed.

End ReconcilerFacts.

(** ** The Okta adapter *)

Section OktaFacts.

Variable now : Z.

Lemma request_world {X : Type} (w : Okta.World) (tenant : string)
    (k : Okta.OpKind) (op : Okta.ProviderOp) (r : X)
    (live' : list (string * Group)) :
  snd (Okta.request w tenant k op r live') =
    {| Okta.live := if Okta.rejects w tenant k then Okta.live w else live';
       Okta.failing := Okta.failing w;
       Okta.oplog := Okta.oplog w ++ [op] |}.
Proof. unfold Okta.request. destruct (Okta.rejects w tenant k); reflexivity. Qed.

Lemma enact_detect (diff : list ProposedChange) (k : Okta.OpKind)
    (op : Okta.ProviderOp) (live' : list (string * Group))
    (org : OktaOrganization) (ctx : ExecutionContext) (w : Okta.World) :
  execute ctx = false ->
  Okta.enact diff k op live' org ctx w = (Returned diff, w).
Proof. intros Hx. unfold Okta.enact. rewrite Hx. destruct diff; reflexivity. Qed.

Lemma only_fetched_refl (w : Okta.World) : only_fetched w w.
Proof.
  repeat split. exists []. rewrite app_nil_r. auto.
Qed.

Lemma only_fetched_trans (w1 w2 w3 : Okta.World) :
  only_fetched w1 w2 -> only_fetched w2 w3 -> only_fetched w1 w3.
Proof.
  intros (L1 & F1 & o1 & O1 & P1) (L2 & F2 & o2 & O2 & P2).
  repeat split; try congruence.
  exists (o1 ++ o2). rewrite O2, O1, app_assoc, forallb_app, P1, P2. auto.
Qed.

Lemma get_group_only_fetches (gid gname : string) (org : OktaOrganization)
    (w : Okta.World) :
  only_fetched w (snd (get_group Okta.adapter gid gname org w)).
Proof.
  cbn [get_group Okta.adapter]. unfold Okta.get_group.
  rewrite request_world. unfold only_fetched. cbn.
  split; [destruct (Okta.rejects _ _ _); reflexivity|].
  split; [reflexivity|]. eexists. split; reflexivity.
Qed.

Lemma helpers_detect_idle (ctx : ExecutionContext) (w : Okta.World) :
  execute ctx = false ->
  (forall cg v org, snd (update_group_name Okta.adapter cg v org ctx w) = w) /\
  (forall cg v org,
      snd (update_group_description Okta.adapter cg v org ctx w) = w) /\
  (forall cg v org, snd (update_group_members Okta.adapter cg v org ctx w) = w) /\
  (forall d cg org, snd (maybe_delete_group Okta.adapter d cg org ctx w) = w).
Proof.
  intros Hx. cbn.
  unfold Okta.update_group_name, Okta.update_group_description,
    Okta.update_group_members, Okta.maybe_delete_group.
  repeat split; intros; repeat match goal with
    | |- context [match ?x with _ => _ end] => destruct x
    end; rewrite ?enact_detect by assumption; reflexivity.
Qed.

(** With the helpers modelled above, which send a request only when
    [execute] is true, a detect run makes the provider receive fetch
    requests only and keep its groups. *)
Lemma okta_detect_run_only_fetches (config : Config)
    (t : OktaGroupTemplate) (w : Okta.World) :
  let st' := snd (apply Okta.adapter now config detect (start w t)) in
  only_fetched w (world st') /\
  forallb detect_call (List.concat (trace st')) = true.
Proof.
  intros st'.
  assert (detect_step only_fetched (start w t) st') as [H (new & T & F)].
  { apply apply_detect; auto using only_fetched_refl, get_group_only_fetches.
    - exact only_fetched_trans.
    - intros. rewrite (proj1 (helpers_detect_idle ctx w0 H)).
      apply only_fetched_refl.
    - intros. rewrite (proj1 (proj2 (helpers_detect_idle ctx w0 H))).
      apply only_fetched_refl.
    - intros.
      rewrite (proj1 (proj2 (proj2 (helpers_detect_idle ctx w0 H)))).
      apply only_fetched_refl.
    - intros.
      rewrite (proj2 (proj2 (proj2 (helpers_detect_idle ctx w0 H)))).
      apply only_fetched_refl. }
  split; [exact H|]. rewrite T. exact F.
Qed.

Lemma set_current_value_changes (cd : AccountChangeDetails) (g : option Group) :
  proposed_changes (set_current_value cd g) = proposed_changes cd.
Proof. destruct g; reflexivity. Qed.

Lemma enact_returned (diff l : list ProposedChange) (k : Okta.OpKind)
    (op : Okta.ProviderOp) (live' : list (string * Group))
    (org : OktaOrganization) (ctx : ExecutionContext) (w : Okta.World) :
  fst (Okta.enact diff k op live' org ctx w) = Returned l -> l = diff.
Proof.
  unfold Okta.enact, Okta.request.
  destruct diff; [cbn; congruence|].
  destruct (execute ctx); [|cbn; congruence].
  destruct (Okta.rejects _ _ _); cbn; congruence.
Qed.

(** A helper that returns in apply mode returns the same list in detect
    mode, whatever the state of the provider. *)
Lemma helpers_same_in_both_modes (l : list ProposedChange)
    (org : OktaOrganization) (w w' : Okta.World) :
  (forall cg v,
      fst (update_group_name Okta.adapter cg v org enact_ctx w) = Returned l ->
      update_group_name Okta.adapter cg v org detect w' = (Returned l, w')) /\
  (forall cg v,
      fst (update_group_description Okta.adapter cg v org enact_ctx w)
        = Returned l ->
      update_group_description Okta.adapter cg v org detect w'
        = (Returned l, w')) /\
  (forall cg v,
      fst (update_group_members Okta.adapter cg v org enact_ctx w) = Returned l ->
      update_group_members Okta.adapter cg v org detect w' = (Returned l, w')) /\
  (forall d cg,
      fst (maybe_delete_group Okta.adapter d cg org enact_ctx w) = Returned l ->
      maybe_delete_group Okta.adapter d cg org detect w' = (Returned l, w')).
Proof.
  cbn [update_group_name update_group_description update_group_members
       maybe_delete_group Okta.adapter].
  unfold Okta.update_group_name, Okta.update_group_description,
    Okta.update_group_members, Okta.maybe_delete_group.
  repeat split; intros; repeat match goal with
    | H : fst (match ?x with _ => _ end) = _ |- _ => destruct x
    | H : fst (if ?x then _ else _) = _ |- _ => destruct x
    | H : fst (Raised _, _) = Returned _ |- _ => discriminate H
    | H : fst (Returned _, _) = Returned _ |- _ =>
        cbn in H; injection H as <-
    | H : fst (Okta.enact _ _ _ _ _ _ _) = Returned _ |- _ =>
        apply enact_returned in H; subst
    end; rewrite ?enact_detect by reflexivity; reflexivity.
Qed.

Lemma field_tasks_same_in_both_modes (t : OktaGroupTemplate)
    (cg : option Group) (org : OktaOrganization) (w w' : Okta.World)
    (changes : list (list ProposedChange)) :
  join (fst (run_tasks (map snd (field_tasks Okta.adapter t cg org enact_ctx)) w))
    = Returned changes ->
  run_tasks (map snd (field_tasks Okta.adapter t cg org detect)) w'
    = (map Returned changes, w').
Proof.
  unfold field_tasks. cbn [map snd run_tasks].
  destruct (update_group_name Okta.adapter cg _ org enact_ctx w)
    as [o1 w1] eqn:E1.
  destruct (update_group_description Okta.adapter cg _ org enact_ctx w1)
    as [o2 w2] eqn:E2.
  destruct (update_group_members Okta.adapter cg _ org enact_ctx w2)
    as [o3 w3] eqn:E3.
  destruct (maybe_delete_group Okta.adapter _ cg org enact_ctx w3)
    as [o4 w4] eqn:E4.
  cbn [fst]. intros J. apply join_returned in J.
  destruct changes as [|l1 [|l2 [|l3 [|l4 [|]]]]]; try discriminate J.
  injection J as -> -> -> ->.
  apply (f_equal fst) in E1, E2, E3, E4. cbn [fst] in *.
  rewrite (proj1 (helpers_same_in_both_modes l1 org w w') _ _ E1).
  rewrite (proj1 (proj2 (helpers_same_in_both_modes l2 org w1 w')) _ _ E2).
  rewrite (proj1 (proj2 (proj2 (helpers_same_in_both_modes l3 org w2 w')))
             _ _ E3).
  rewrite (proj2 (proj2 (proj2 (helpers_same_in_both_modes l4 org w3 w')))
             _ _ E4).
  reflexivity.
Qed.

(** C2, as the code has it.  Whenever the apply-mode reconciliation of
    an organization returns, the detect-mode one, run on the same live
    state, returns too.  If the group is present, the two lists of
    proposed changes are identical.  If it is absent, the detect-mode
    list is the [CREATE] entry alone, and the apply-mode list is that
    entry followed by what the name, description, member and delete
    helpers returned, in that order, for the group that [create_group]
    returned. *)
Theorem modes_agree_on_present_groups (t : OktaGroupTemplate)
    (w : Okta.World) (org : OktaOrganization)
    (cd_a : AccountChangeDetails) (st_a : St Okta.World) :
  _apply_to_account Okta.adapter now org enact_ctx (start w t)
    = (Returned cd_a, st_a) ->
  exists cd_d st_d,
    _apply_to_account Okta.adapter now org detect (start w t)
      = (Returned cd_d, st_d) /\
    match Okta.lookup w (org_idp_name org) (group_id (properties t))
                      (name (properties t)) with
    | Some _ => proposed_changes cd_d = proposed_changes cd_a
    | None =>
        proposed_changes cd_d = [create_change t] /\
        exists created w1 w2 w3 w4 w5 w6 l1 l2 l3 l4,
          get_group Okta.adapter (group_id (properties t))
            (name (properties t)) org w = (Returned None, w1) /\
          create_group Okta.adapter (name (properties t))
            (idp_name (properties t)) (description (properties t)) org
            enact_ctx w1 = (Returned (Some created), w2) /\
          update_group_name Okta.adapter (Some created) (name (properties t))
            org enact_ctx w2 = (Returned l1, w3) /\
          update_group_description Okta.adapter (Some created)
            (description (properties t)) org enact_ctx w3
            = (Returned l2, w4) /\
          update_group_members Okta.adapter (Some created)
            (filter (fun u => negb (user_expired now u))
                    (members (properties t)))
            org enact_ctx w4 = (Returned l3, w5) /\
          maybe_delete_group Okta.adapter
            (evaluateLifecycle now (expires_at t) (deleted t))
            (Some created) org enact_ctx w5 = (Returned l4, w6) /\
          proposed_changes cd_a = create_change t :: l1 ++ l2 ++ l3 ++ l4
    end.
Proof.
  unfold _apply_to_account, bind, get_self, await, start.
  cbn [world self trace].
  destruct (get_group Okta.adapter _ _ org w) as [[[g|]|e] w1] eqn:G;
    [| |discriminate].
  - assert (Okta.lookup w (org_idp_name org) (group_id (properties t))
              (name (properties t)) = Some g) as L.
    { cbn in G. unfold Okta.get_group, Okta.request in G.
      destruct (Okta.rejects _ _ _); congruence. }
    rewrite L, !reconcile_fields_run. cbn [world self trace].
    destruct (join (fst (run_tasks
                (map snd (field_tasks Okta.adapter _ (Some g) org enact_ctx))
                w1))) as [changes|e] eqn:J; [|discriminate].
    intros H. injection H as <- <-.
    change (remove_expired now detect t) with (remove_expired now enact_ctx t).
    rewrite (field_tasks_same_in_both_modes _ _ _ _ w1 _ J).
    cbn [fst snd]. rewrite join_map_returned.
    eexists. eexists. split; reflexivity.
  - assert (Okta.lookup w (org_idp_name org) (group_id (properties t))
              (name (properties t)) = None) as L.
    { cbn in G. unfold Okta.get_group, Okta.request in G.
      destruct (Okta.rejects _ _ _); congruence. }
    rewrite L. cbn [execute enact_ctx detect negb world self trace].
    destruct (create_group Okta.adapter _ _ _ org _ w1) as [[cg|e] w2] eqn:C;
      [|discriminate].
    assert (exists created, cg = Some created) as [created ->].
    { cbn in C. unfold Okta.create_group, Okta.request in C. cbn in C.
      destruct (Okta.rejects _ _ _); inversion C; eauto. }
    rewrite reconcile_fields_run. cbn [world self trace].
    unfold field_tasks. cbn [map snd run_tasks].
    destruct (update_group_name Okta.adapter _ _ org _ w2) as [o1 w3] eqn:E1.
    destruct (update_group_description Okta.adapter _ _ org _ w3)
      as [o2 w4] eqn:E2.
    destruct (update_group_members Okta.adapter _ _ org _ w4)
      as [o3 w5] eqn:E3.
    destruct (maybe_delete_group Okta.adapter _ _ org _ w5) as [o4 w6] eqn:E4.
    cbn [fst snd].
    destruct (join [o1; o2; o3; o4]) as [changes|e] eqn:J; [|discriminate].
    apply join_returned in J.
    destruct changes as [|l1 [|l2 [|l3 [|l4 [|]]]]]; try discriminate J.
    injection J as -> -> -> ->.
    intros H. injection H as <- <-.
    unfold ret. eexists. eexists. split; [reflexivity|].
    split; [reflexivity|].
    exists created, w1, w2, w3, w4, w5, w6, l1, l2, l3, l4.
    split; [reflexivity|]. split; [exact C|]. split; [exact E1|].
    split; [exact E2|]. split; [exact E3|]. split; [exact E4|].
    cbn [proposed_changes extend_changes set_current_value List.concat app].
    rewrite app_nil_r. reflexivity.
Qed.

Lemma requested_refl (w : Okta.World) : requested [] w w.
Proof. split; [reflexivity|]. rewrite app_nil_r. reflexivity. Qed.

Lemma requested_trans (o1 o2 : list Okta.ProviderOp) (w1 w2 w3 : Okta.World) :
  requested o1 w1 w2 -> requested o2 w2 w3 -> requested (o1 ++ o2) w1 w3.
Proof.
  intros [F1 O1] [F2 O2]. split; [congruence|].
  rewrite O2, O1, app_assoc. reflexivity.
Qed.

Lemma request_requested {X : Type} (w : Okta.World) (tenant : string)
    (k : Okta.OpKind) (op : Okta.ProviderOp) (r : X)
    (live' : list (string * Group)) :
  requested [op] w (snd (Okta.request w tenant k op r live')).
Proof. rewrite request_world. split; reflexivity. Qed.

(** The requests of a helper: one request when there is a diff to
    enact and [execute] is true, none otherwise. *)
Lemma enact_requested (diff : list ProposedChange) (k : Okta.OpKind)
    (op : Okta.ProviderOp) (live' : list (string * Group))
    (org : OktaOrganization) (ctx : ExecutionContext) (w : Okta.World) :
  requested (if list_truthy diff && execute ctx then [op] else [])
            w (snd (Okta.enact diff k op live' org ctx w)).
Proof.
  unfold Okta.enact. destruct diff; cbn [list_truthy andb].
  - apply requested_refl.
  - destruct (execute ctx).
    + apply request_requested.
    + apply requested_refl.
Qed.

Lemma update_helpers_requested (cg : option Group) (org : OktaOrganization)
    (ctx : ExecutionContext) (w : Okta.World) :
  (forall v, exists ops,
      requested ops w (snd (update_group_name Okta.adapter cg v org ctx w)) /\
      existsb Okta.is_delete ops = false) /\
  (forall v, exists ops,
      requested ops w
        (snd (update_group_description Okta.adapter cg v org ctx w)) /\
      existsb Okta.is_delete ops = false) /\
  (forall v, exists ops,
      requested ops w (snd (update_group_members Okta.adapter cg v org ctx w)) /\
      existsb Okta.is_delete ops = false).
Proof.
  cbn [update_group_name update_group_description update_group_members
       Okta.adapter].
  unfold Okta.update_group_name, Okta.update_group_description,
    Okta.update_group_members.
  repeat split; intros v; (destruct cg as [g|];
    [eexists; split; [apply enact_requested|];
     destruct (list_truthy _ && execute ctx); reflexivity
    |exists []; split; [apply requested_refl|reflexivity]]).
Qed.

(** [maybe_delete_group] sends a delete request only when it is told
    that the template is deleted and [execute] is true; and then, if
    it returns, it did send one. *)
Lemma maybe_delete_requested (d : bool) (cg : option Group)
    (org : OktaOrganization) (ctx : ExecutionContext) (w : Okta.World) :
  exists ops,
    requested ops w (snd (maybe_delete_group Okta.adapter d cg org ctx w)) /\
    (existsb Okta.is_delete ops = true -> d = true /\ execute ctx = true) /\
    (d = true -> execute ctx = true ->
     (exists l, fst (maybe_delete_group Okta.adapter d cg org ctx w)
                = Returned l) ->
     existsb Okta.is_delete ops = true).
Proof.
  cbn [maybe_delete_group Okta.adapter]. unfold Okta.maybe_delete_group.
  destruct d.
  - destruct cg as [g|].
    + eexists. split; [apply enact_requested|].
      unfold Okta.delete_diff. cbn [list_truthy andb].
      destruct (execute ctx); cbn; split; auto; discriminate.
    + exists []. split; [apply requested_refl|].
      split; [discriminate|]. intros _ _ [l H]. discriminate H.
  - exists []. split; [apply requested_refl|].
    split; discriminate.
Qed.

Lemma join_four {X : Type} (o1 o2 o3 o4 : Outcome X) (l : list X) :
  join [o1; o2; o3; o4] = Returned l -> exists x, o4 = Returned x.
Proof.
  intros J. apply join_returned in J.
  destruct l as [|l1 [|l2 [|l3 [|l4 [|]]]]]; try discriminate J.
  injection J as -> -> -> ->. eauto.
Qed.

Lemma field_tasks_requested (t : OktaGroupTemplate) (cg : option Group)
    (org : OktaOrganization) (ctx : ExecutionContext) (w : Okta.World) :
  let r := run_tasks (map snd (field_tasks Okta.adapter t cg org ctx)) w in
  exists ops,
    requested ops w (snd r) /\
    (existsb Okta.is_delete ops = true ->
     deleted t = true /\ execute ctx = true) /\
    (deleted t = true -> execute ctx = true ->
     (exists l, join (fst r) = Returned l) ->
     existsb Okta.is_delete ops = true).
Proof.
  unfold field_tasks. cbn [map snd run_tasks].
  destruct (update_helpers_requested cg org ctx w) as (H1 & _ & _).
  destruct (H1 (name (properties t))) as (ops1 & R1 & D1). clear H1.
  destruct (update_group_name Okta.adapter cg _ org ctx w) as [o1 w1].
  destruct (update_helpers_requested cg org ctx w1) as (_ & H2 & _).
  destruct (H2 (description (properties t))) as (ops2 & R2 & D2). clear H2.
  destruct (update_group_description Okta.adapter cg _ org ctx w1) as [o2 w2].
  destruct (update_helpers_requested cg org ctx w2) as (_ & _ & H3).
  destruct (H3 (members (properties t))) as (ops3 & R3 & D3). clear H3.
  destruct (update_group_members Okta.adapter cg _ org ctx w2) as [o3 w3].
  destruct (maybe_delete_requested (deleted t) cg org ctx w3)
    as (ops4 & R4 & D4 & D4').
  destruct (maybe_delete_group Okta.adapter _ cg org ctx w3) as [o4 w4].
  cbn [fst snd] in *.
  exists (ops1 ++ ops2 ++ ops3 ++ ops4). split.
  - eauto using requested_trans.
  - rewrite !existsb_app, D1, D2, D3. cbn [orb]. split; [assumption|].
    intros Hd Hx [l J]. apply D4'; try assumption. eapply join_four; eauto.
Qed.

Lemma get_group_requested (gid gname : string) (org : OktaOrganization)
    (w : Okta.World) :
  requested [Okta.op_fetch (org_idp_name org) gid gname] w
            (snd (get_group Okta.adapter gid gname org w)).
Proof. cbn. apply request_requested. Qed.

Lemma create_group_requested (gname idp descr : string)
    (org : OktaOrganization) (ctx : ExecutionContext) (w : Okta.World) :
  exists ops,
    requested ops w (snd (create_group Okta.adapter gname idp descr org ctx w)) /\
    existsb Okta.is_delete ops = false.
Proof.
  cbn [create_group Okta.adapter]. unfold Okta.create_group.
  destruct (execute ctx).
  - eexists. split; [apply request_requested|reflexivity].
  - exists []. split; [apply requested_refl|reflexivity].
Qed.

(** The delete requests of one reconciliation. *)
Lemma account_delete_requests (t : OktaGroupTemplate) (w : Okta.World)
    (org : OktaOrganization) (ctx : ExecutionContext) :
  let r := _apply_to_account Okta.adapter now org ctx (start w t) in
  let gone := evaluateLifecycle now (expires_at t) (deleted t) in
  exists ops,
    requested ops w (world (snd r)) /\
    (existsb Okta.is_delete ops = true -> execute ctx = true /\ gone = true) /\
    (execute ctx = true -> gone = true -> (exists cd, fst r = Returned cd) ->
     existsb Okta.is_delete ops = true).
Proof.
  intros r gone. subst r.
  unfold _apply_to_account, bind, get_self, await, start.
  cbn [world self trace].
  pose proof (get_group_requested (group_id (properties t))
                (name (properties t)) org w) as Rg.
  destruct (get_group Okta.adapter _ _ org w) as [[[g|]|e] w1];
    cbn [snd] in Rg.
  - rewrite reconcile_fields_run. cbn [world self trace fst snd].
    destruct (field_tasks_requested (remove_expired now ctx t) (Some g) org
                ctx w1) as (ops & Rf & D1 & D2).
    change (deleted (remove_expired now ctx t)) with gone in *.
    eexists. split; [eapply requested_trans; [exact Rg|exact Rf]|].
    cbn [existsb app orb Okta.is_delete]. split; [tauto|].
    intros Hx Hg [cd H]. apply D2; try assumption.
    destruct (join _) as [l|]; [eauto|discriminate].
  - destruct (execute ctx) eqn:Hx; cbn [negb world self trace].
    + destruct (create_group_requested (name (properties t))
                  (idp_name (properties t)) (description (properties t))
                  org ctx w1) as (opsc & Rc & Dc).
      destruct (create_group Okta.adapter _ _ _ org ctx w1) as [[cg|e] w2];
        cbn [snd] in Rc.
      * cbn [world self trace].
        rewrite reconcile_fields_run. cbn [world self trace fst snd].
        destruct (field_tasks_requested (remove_expired now ctx t) cg org
                    ctx w2) as (ops & Rf & D1 & D2).
        change (deleted (remove_expired now ctx t)) with gone in *.
        eexists. split.
        { eapply requested_trans; [exact Rg|].
          eapply requested_trans; [exact Rc|exact Rf]. }
        cbn [existsb app orb Okta.is_delete]. rewrite existsb_app, Dc.
        cbn [orb]. split; [tauto|].
        intros _ Hg [cd H]. apply D2; try assumption.
        destruct (join _) as [l|]; [eauto|discriminate].
      * eexists. split; [eapply requested_trans; [exact Rg|exact Rc]|].
        cbn [existsb app orb Okta.is_delete fst]. rewrite Dc.
        split; [discriminate|]. intros _ _ [cd H]. discriminate H.
    + eexists. split; [exact Rg|]. cbn. split; discriminate.
  - eexists. split; [exact Rg|]. cbn.
    split; [discriminate|]. intros _ _ [cd H]. discriminate H.
Qed.

(** C5, as the code has it.  [self.delete()] is reached only when
    [execute] is true, the template is deleted (by its flag or by its
    expiry) and every call of the reconciliation returned, the delete
    request to the provider among them; the provider receives a delete
    request only when [execute] is true and the template is deleted.
    The [force_delete] flag is never consulted: the run is the same
    whatever its value. *)
Theorem template_removed_only_when_deleted_and_executing
    (t : OktaGroupTemplate) (w : Okta.World) (org : OktaOrganization)
    (ctx : ExecutionContext) :
  let r := _apply_to_account Okta.adapter now org ctx (start w t) in
  let gone := evaluateLifecycle now (expires_at t) (deleted t) in
  exists ops,
    requested ops w (world (snd r)) /\
    (existsb is_template_delete_call (List.concat (trace (snd r))) = true ->
     execute ctx = true /\ gone = true /\
     (exists cd, fst r = Returned cd) /\
     existsb Okta.is_delete ops = true) /\
    (existsb Okta.is_delete ops = true -> execute ctx = true /\ gone = true) /\
    (forall b,
        let r' := _apply_to_account Okta.adapter now org ctx
                    (start w (with_force_delete b t)) in
        fst r' = fst r /\ world (snd r') = world (snd r) /\
        trace (snd r') = trace (snd r)).
Proof.
  intros r gone.
  destruct (account_delete_requests t w org ctx) as (ops & Rq & D1 & D2).
  exists ops. split; [exact Rq|]. split; [|split; [exact D1|]].
  - intros H.
    destruct (self_delete_reached Okta.adapter now org ctx w t H)
      as (Hx & Hg & Hr).
    repeat split; try assumption. apply D2; assumption.
  - intros b. apply force_delete_not_consulted.
Qed.

End OktaFacts.

(** ** Schedules of the awaits *)

Lemma existsb_none {X : Type} (f : X -> bool) (l : list X) :
  existsb f l = false <-> forall x, In x l -> f x = false.
Proof.
  induction l as [|y l IH]; simpl.
  - split; [intros _ x []|reflexivity].
  - rewrite orb_false_iff, IH. split.
    + intros [Hy Hl] x [<-|Hx]; auto.
    + intros H. split; auto.
Qed.

Lemma gather_schedule_calls (todo flight : list Call) (s : list Event) :
  gather_schedule todo flight s ->
  forall e, In e s -> In (call_of e) (todo ++ flight).
Proof.
  induction 1 as [|c todo flight s _ IH|c todo f1 f2 s _ IH]; intros e He.
  - destruct He.
  - destruct He as [<-|He]; [left; reflexivity|].
    specialize (IH e He). rewrite !in_app_iff in IH. simpl in IH.
    simpl. rewrite in_app_iff. tauto.
  - destruct He as [<-|He].
    + simpl. rewrite !in_app_iff. simpl. tauto.
    + specialize (IH e He). rewrite !in_app_iff in *. simpl. tauto.
Qed.

(** In a gather, the tasks begin in argument order. *)
Lemma gather_schedule_begins (todo flight : list Call) (s : list Event) :
  gather_schedule todo flight s -> filter is_begin s = map Begin todo.
Proof.
  induction 1 as [|c todo flight s _ IH|c todo f1 f2 s _ IH]; simpl;
    congruence.
Qed.

Lemma schedule_calls (tr : list (list Call)) (s : list Event) :
  schedule tr s -> forall e, In e s -> In (call_of e) (List.concat tr).
Proof.
  induction 1 as [|batch rest s1 s2 H1 _ IH]; intros e He; [destruct He|].
  simpl. rewrite in_app_iff in *. destruct He as [He|He].
  - left. apply (gather_schedule_calls _ _ _ H1) in He.
    rewrite app_nil_r in He. assumption.
  - right. auto.
Qed.

(** Along a coroutine, calls begin in program order. *)
Lemma schedule_begins (tr : list (list Call)) (s : list Event) :
  schedule tr s -> filter is_begin s = map Begin (List.concat tr).
Proof.
  induction 1 as [|batch rest s1 s2 H1 _ IH]; [reflexivity|].
  simpl. rewrite filter_app, map_app, IH.
  rewrite (gather_schedule_begins _ _ _ H1). reflexivity.
Qed.

Lemma none_after_app (p q : Event -> bool) (s1 s2 : list Event) :
  none_after p q (s1 ++ s2) =
  none_after p q s1 && (negb (existsb p s1) || negb (existsb q s2))
  && none_after p q s2.
Proof.
  induction s1 as [|e s1 IH]; simpl; [reflexivity|].
  rewrite IH, existsb_app.
  destruct (p e), (existsb q s1), (existsb q s2), (none_after p q s1),
    (existsb p s1), (none_after p q s2); reflexivity.
Qed.

Lemma none_after_without (p q : Event -> bool) (s : list Event) :
  existsb p s = false \/ existsb q s = false -> none_after p q s = true.
Proof.
  induction s as [|e s IH]; simpl; [reflexivity|].
  rewrite !orb_false_iff. intros [[Hp Hs]|[Hq Hs]].
  - rewrite Hp, IH by auto. reflexivity.
  - rewrite Hs, IH by auto. destruct (p e); reflexivity.
Qed.

Lemma existsb_begins (q : Event -> bool) (s : list Event) :
  (forall e, q e = true -> is_begin e = true) ->
  existsb q (filter is_begin s) = existsb q s.
Proof.
  intros Hq. induction s as [|e s IH]; simpl; [reflexivity|].
  destruct (is_begin e) eqn:B; simpl; rewrite IH; [reflexivity|].
  destruct (q e) eqn:Q; [|reflexivity].
  apply Hq in Q. congruence.
Qed.

(** An order between beginnings can be read off the beginnings alone. *)
Lemma none_after_begins (p q : Event -> bool) (s : list Event) :
  (forall e, p e = true -> is_begin e = true) ->
  (forall e, q e = true -> is_begin e = true) ->
  none_after p q (filter is_begin s) = none_after p q s.
Proof.
  intros Hp Hq. induction s as [|e s IH]; simpl; [reflexivity|].
  destruct (is_begin e) eqn:B; simpl; rewrite IH.
  - rewrite existsb_begins by assumption. reflexivity.
  - destruct (p e) eqn:P; [|reflexivity]. apply Hp in P. congruence.
Qed.

(** Calls made under different awaits are ordered as the awaits are. *)
Lemma schedule_batches_apart (pc qc : Call -> bool) (tr : list (list Call))
    (s : list Event) :
  schedule tr s ->
  batches_apart pc qc tr = true ->
  none_after (fun e => pc (call_of e)) (fun e => qc (call_of e)) s = true.
Proof.
  induction 1 as [|batch rest s1 s2 H1 H2 IH]; [reflexivity|].
  simpl. rewrite andb_true_iff. intros [Hb Hrest].
  rewrite none_after_app, (IH Hrest), andb_true_r.
  assert (forall f, existsb f batch = false ->
                    existsb (fun e => f (call_of e)) s1 = false) as In1.
  { intros f Hf. apply existsb_none. intros e He.
    apply (gather_schedule_calls _ _ _ H1) in He. rewrite app_nil_r in He.
    exact (proj1 (existsb_none f batch) Hf _ He). }
  assert (forall f, existsb f (List.concat rest) = false ->
                    existsb (fun e => f (call_of e)) s2 = false) as In2.
  { intros f Hf. apply existsb_none. intros e He.
    apply (schedule_calls _ _ H2) in He.
    exact (proj1 (existsb_none f _) Hf _ He). }
  destruct (existsb pc batch) eqn:P.
  - apply andb_true_iff in Hb as [Q1 Q2].
    apply negb_true_iff in Q1, Q2.
    rewrite none_after_without by (right; auto).
    rewrite (In2 _ Q2). simpl. apply orb_true_r.
  - rewrite none_after_without by (left; auto).
    rewrite (In1 _ P). reflexivity.
Qed.

(** Every gather can run with all its tasks in flight at once: they all
    begin, then they all end. *)
Lemma gather_schedule_ends (flight : list Call) :
  gather_schedule [] flight (map End flight).
Proof.
  induction flight as [|c flight IH]; simpl.
  - constructor.
  - apply (gs_end c [] [] flight). exact IH.
Qed.

Lemma gather_schedule_overlapping (todo flight : list Call) :
  gather_schedule todo flight (map Begin todo ++ map End (flight ++ todo)).
Proof.
  revert flight. induction todo as [|c todo IH]; intros flight; simpl.
  - rewrite app_nil_r. apply gather_schedule_ends.
  - constructor. specialize (IH (flight ++ [c])).
    rewrite <- app_assoc in IH. exact IH.
Qed.

Lemma eager_schedule_possible (tr : list (list Call)) :
  schedule tr (eager_schedule tr).
Proof.
  induction tr as [|batch rest IH]; simpl.
  - constructor.
  - constructor; [|exact IH]. apply (gather_schedule_overlapping batch []).
Qed.

Section Ordering.

Context {W : Type}.
Variable A : Adapter W.
Variable now : Z.

(** C6, as the code has it.  In every schedule of one organization's
    reconciliation, [maybe_delete_group] is dispatched after the three
    field updates have been dispatched, and after [get_group] and
    [create_group] have ended.  (It is handed to the same [gather] as
    the field updates, so nothing makes it wait for their end.) *)
Theorem delete_is_dispatched_after_the_field_updates
    (org : OktaOrganization) (ctx : ExecutionContext) (w : W)
    (t : OktaGroupTemplate) (s : list Event) :
  schedule (trace (snd (_apply_to_account A now org ctx (start w t)))) s ->
  delete_dispatched_last s = true /\ fetch_and_create_first s = true.
Proof.
  intros Hs. split.
  - unfold delete_dispatched_last.
    rewrite <- none_after_begins
      by (intros e H; apply andb_true_iff in H; tauto).
    rewrite (schedule_begins _ _ Hs). clear Hs.
    unfold _apply_to_account, bind, get_self, await, start.
    cbn [world self trace].
    destruct (get_group A _ _ org w) as [[[g|]|e] w1].
    + rewrite reconcile_fields_run. cbn [world self trace fst snd].
      destruct (join _); [destruct (execute ctx && _)|]; reflexivity.
    + destruct (execute ctx) eqn:Hx; cbn [negb world self trace];
        [|reflexivity].
      destruct (create_group A _ _ _ org ctx w1) as [[cg|e] w2];
        [|reflexivity].
      rewrite reconcile_fields_run. cbn [world self trace fst snd].
      destruct (join _); [destruct (execute ctx && _)|]; reflexivity.
    + reflexivity.
  - unfold fetch_and_create_first.
    apply (schedule_batches_apart
             (fun c => is_field_update_call c || is_delete_call c)
             (fun c => is_get_call c || is_create_call c) _ _ Hs).
    clear Hs.
    unfold _apply_to_account, bind, get_self, await, start.
    cbn [world self trace].
    destruct (get_group A _ _ org w) as [[[g|]|e] w1].
    + rewrite reconcile_fields_run. cbn [world self trace fst snd].
      destruct (join _); [destruct (execute ctx && _)|]; reflexivity.
    + destruct (execute ctx) eqn:Hx; cbn [negb world self trace];
        [|reflexivity].
      destruct (create_group A _ _ _ org ctx w1) as [[cg|e] w2];
        [|reflexivity].
      rewrite reconcile_fields_run. cbn [world self trace fst snd].
      destruct (join _); [destruct (execute ctx && _)|]; reflexivity.
    + reflexivity.
Qed.

End Ordering.

(** ** Runs on sample data *)

Module Runs.

Import Sample.

(** C1 fails as worded: a detect run on a group that exists calls the
    three update helpers and the delete helper, not [get_group] only. *)
Lemma detect_run_calls_the_update_and_delete_helpers :
  let g := Some (eng "dev" [alice]) in
  calls_where (fun c => is_field_update_call c || is_delete_call c)
    (trace (snd (apply Okta.adapter 0 only_dev detect (start w_present t_two))))
  = [update_group_name_call g "eng" dev detect;
     update_group_description_call g "Engineering" dev detect;
     update_group_members_call g [alice; bob] dev detect;
     maybe_delete_group_call false g dev detect].
Proof. vm_compute. reflexivity. Qed.

Lemma detect_run_creates_nothing_and_passes_the_detect_context_witness :
  let tr := trace (snd (apply Okta.adapter 0 only_dev detect
                          (start w_present t_two))) in
  let c := update_group_members_call (Some (eng "dev" [alice])) [alice; bob]
             dev detect in
  In c (List.concat tr) /\
  call_context c = Some detect /\
  calls_where is_create_call tr = [] /\
  calls_where is_template_delete_call tr = [] /\
  execute detect = false.
Proof.
  intros tr c.
  assert (In c (List.concat tr)) as Hin
    by (vm_compute; do 4 right; left; reflexivity).
  destruct (detect_run_creates_nothing_and_passes_the_detect_context
              Okta.adapter 0 only_dev t_two w_present) as (H1 & H2 & H3).
  split; [exact Hin|]. split; [reflexivity|].
  split; [exact H1|]. split; [exact H2|].
  exact (H3 c detect Hin eq_refl).
Defined.

(** C2 fails on an absent group: in detect mode the reconciler stops
    after the [CREATE] entry, in apply mode it goes on and also
    proposes the member update. *)
Lemma modes_differ_on_absent_group :
  exists cd_d st_d cd_a st_a pc,
    _apply_to_account Okta.adapter 0 dev detect (start empty_world t_one)
      = (Returned cd_d, st_d) /\
    _apply_to_account Okta.adapter 0 dev enact_ctx (start empty_world t_one)
      = (Returned cd_a, st_a) /\
    In pc (proposed_changes cd_a) /\ ~ In pc (proposed_changes cd_d).
Proof.
  do 4 eexists.
  exists (Okta.update_change (eng "dev" []) "members" (VUsers [])
            (VUsers ["alice"])).
  split; [vm_compute; reflexivity|]. split; [vm_compute; reflexivity|]. split.
  - right. left. reflexivity.
  - intros [H|[]]. discriminate H.
Qed.

Lemma modes_agree_on_present_groups_witness :
  exists cd_a st_a,
    _apply_to_account Okta.adapter 0 dev enact_ctx (start w_present t_two)
      = (Returned cd_a, st_a) /\
    exists cd_d st_d,
      _apply_to_account Okta.adapter 0 dev detect (start w_present t_two)
        = (Returned cd_d, st_d) /\
      proposed_changes cd_d = proposed_changes cd_a.
Proof.
  do 2 eexists. split; [vm_compute; reflexivity|].
  refine (modes_agree_on_present_groups 0 t_two w_present dev _ _ _).
  vm_compute. reflexivity.
Defined.

(** C3 fails: [dev] reconciles and has changes to report, [prod]
    raises, and [apply] raises instead of returning a report. *)
Lemma failing_tenant_loses_the_report :
  fst (apply Okta.adapter 0 both enact_ctx (start w_prod_down t_two))
    = Raised "ProviderError" /\
  exists cd st',
    _apply_to_account Okta.adapter 0 dev enact_ctx (start w_prod_down t_two)
      = (Returned cd, st') /\
    proposed_changes cd <> [].
Proof.
  split; [vm_compute; reflexivity|].
  do 2 eexists. split; [vm_compute; reflexivity|]. discriminate.
Qed.

Lemma failed_tenant_fails_the_run_witness :
  In (Raised "ProviderError")
     (account_outcomes Okta.adapter 0 both enact_ctx
        (start w_prod_down t_two)) /\
  exists e',
    fst (apply Okta.adapter 0 both enact_ctx (start w_prod_down t_two))
      = Raised e' /\
    In (Raised e')
       (account_outcomes Okta.adapter 0 both enact_ctx
          (start w_prod_down t_two)).
Proof.
  assert (In (Raised "ProviderError")
            (account_outcomes Okta.adapter 0 both enact_ctx
               (start w_prod_down t_two))) as H.
  { vm_compute. right. left. reflexivity. }
  split; [exact H|].
  exact (failed_tenant_fails_the_run Okta.adapter 0 both enact_ctx
           (start w_prod_down t_two) "ProviderError" H).
Defined.

Lemma absent_group_in_detect_mode_witness :
  exists cd,
    _apply_to_account Okta.adapter 0 dev detect (start empty_world t_one) =
      (Returned cd,
       Build_St
         {| Okta.live := []; Okta.failing := [];
            Okta.oplog := [Okta.op_fetch "dev" "dev-eng" "eng"] |}
         t_one [[get_group_call "dev-eng" "eng" dev]]) /\
    proposed_changes cd = [create_change t_one] /\
    change_type (create_change t_one) = CREATE.
Proof.
  refine (absent_group_in_detect_mode Okta.adapter 0 dev detect
            (start empty_world t_one) _ _ _); reflexivity.
Defined.

(** C5 fails: the template is deleted but not force-deleted, and an
    apply run both sends the delete request and removes the template
    file. *)
Lemma template_removed_without_force_delete :
  let r := _apply_to_account Okta.adapter 0 dev enact_ctx
             (start w_present t_deleted) in
  force_delete t_deleted = false /\
  In [template_delete_call (file_path t_deleted)] (trace (snd r)) /\
  In (Okta.op_delete "dev" "dev-eng") (Okta.oplog (world (snd r))).
Proof.
  split; [reflexivity|]. split.
  - vm_compute. do 3 right. left. reflexivity.
  - vm_compute. right. left. reflexivity.
Qed.

Lemma template_removed_only_when_deleted_and_executing_witness :
  let r := _apply_to_account Okta.adapter 0 dev enact_ctx
             (start w_present t_deleted) in
  existsb is_template_delete_call (List.concat (trace (snd r))) = true /\
  execute enact_ctx = true /\
  evaluateLifecycle 0 (expires_at t_deleted) (deleted t_deleted) = true /\
  exists cd, fst r = Returned cd.
Proof.
  intros r.
  assert (existsb is_template_delete_call (List.concat (trace (snd r))) = true)
    as H by (vm_compute; reflexivity).
  split; [exact H|].
  destruct (template_removed_only_when_deleted_and_executing
              0 t_deleted w_present dev enact_ctx)
    as (ops & _ & H1 & _).
  destruct (H1 H) as (Hx & Hg & Hr & _).
  repeat split; assumption.
Defined.

(** C6 fails: [maybe_delete_group] sits in the same [gather] as the
    field updates.  Here the member update has a request to send; the
    delete is dispatched while that request is in flight. *)
Lemma delete_can_overtake_the_field_updates :
  let g := Some (eng "dev" [alice]) in
  let fetch := get_group_call "dev-eng" "eng" dev in
  let prune := remove_expired_resources_call enact_ctx in
  let upd_name := update_group_name_call g "eng" dev enact_ctx in
  let upd_descr := update_group_description_call g "Engineering" dev enact_ctx in
  let upd_members := update_group_members_call g [alice; bob] dev enact_ctx in
  let del := maybe_delete_group_call true g dev enact_ctx in
  let unlink := template_delete_call "okta/groups/dev/eng.yaml" in
  let s := [Begin fetch; End fetch; Begin prune; End prune;
            Begin upd_name; End upd_name; Begin upd_descr; End upd_descr;
            Begin upd_members; Begin del; End upd_members; End del;
            Begin unlink; End unlink] in
  schedule (trace (snd (_apply_to_account Okta.adapter 0 dev enact_ctx
                          (start w_present t_deleted_two)))) s /\
  delete_after_field_pass s = false.
Proof.
  intros g fetch prune upd_name upd_descr upd_members del unlink s.
  split; [|reflexivity].
  change (trace (snd (_apply_to_account Okta.adapter 0 dev enact_ctx
                        (start w_present t_deleted_two))))
    with [[fetch]; [prune]; [upd_name; upd_descr; upd_members; del]; [unlink]].
  apply (sch_await [fetch] _ [Begin fetch; End fetch]
           [Begin prune; End prune;
            Begin upd_name; End upd_name; Begin upd_descr; End upd_descr;
            Begin upd_members; Begin del; End upd_members; End del;
            Begin unlink; End unlink]).
  { apply gs_begin. apply (gs_end fetch [] [] []). apply gs_done. }
  apply (sch_await [prune] _ [Begin prune; End prune]
           [Begin upd_name; End upd_name; Begin upd_descr; End upd_descr;
            Begin upd_members; Begin del; End upd_members; End del;
            Begin unlink; End unlink]).
  { apply gs_begin. apply (gs_end prune [] [] []). apply gs_done. }
  apply (sch_await [upd_name; upd_descr; upd_members; del] _
           [Begin upd_name; End upd_name; Begin upd_descr; End upd_descr;
            Begin upd_members; Begin del; End upd_members; End del]
           [Begin unlink; End unlink]).
  { apply gs_begin. apply (gs_end upd_name _ [] []).
    apply (gs_begin upd_descr _ []). apply (gs_end upd_descr _ [] []).
    apply (gs_begin upd_members _ []). apply (gs_begin del _ [upd_members]).
    apply (gs_end upd_members _ [] [del]). apply (gs_end del _ [] []).
    apply gs_done. }
  apply (sch_await [unlink] [] [Begin unlink; End unlink] []).
  { apply gs_begin. apply (gs_end unlink [] [] []). apply gs_done. }
  apply sch_nil.
Qed.

Lemma delete_is_dispatched_after_the_field_updates_witness :
  let tr := trace (snd (_apply_to_account Okta.adapter 0 dev enact_ctx
                          (start w_present t_deleted))) in
  schedule tr (eager_schedule tr) /\
  delete_dispatched_last (eager_schedule tr) = true /\
  fetch_and_create_first (eager_schedule tr) = true.
Proof.
  intros tr. split; [apply eager_schedule_possible|].
  exact (delete_is_dispatched_after_the_field_updates Okta.adapter 0 dev
           enact_ctx w_present t_deleted (eager_schedule tr)
           (eager_schedule_possible tr)).
Defined.

(** C7 fails: the organization rejects the creation, and the
    reconciliation raises instead of returning the [CREATE] entry. *)
Lemma failed_create_loses_the_create_entry :
  fst (_apply_to_account Okta.adapter 0 dev enact_ctx
         (start w_no_create t_one)) = Raised "ProviderError" /\
  fst (apply Okta.adapter 0 only_dev enact_ctx (start w_no_create t_one))
    = Raised "ProviderError".
Proof. split; vm_compute; reflexivity. Qed.

Lemma failed_create_raises_witness :
  _apply_to_account Okta.adapter 0 dev enact_ctx (start w_no_create t_one) =
    (Raised "ProviderError",
     Build_St
       (snd (create_group Okta.adapter "eng" "dev" "Engineering" dev enact_ctx
               (snd (get_group Okta.adapter "dev-eng" "eng" dev w_no_create))))
       t_one
       ([] ++ [[get_group_call "dev-eng" "eng" dev]] ++
        [[create_group_call "eng" "dev" "Engineering" dev enact_ctx]])).
Proof.
  refine (failed_create_raises Okta.adapter 0 dev enact_ctx
            (start w_no_create t_one) _ _ "ProviderError" _ _ _);
    reflexivity.
Defined.

(** C8 fails on a deleted template.  The first apply run deletes the
    group; a second apply run on the state it left finds no group,
    proposes to create it, creates it, and deletes it again. *)
Theorem second_apply_of_a_deleted_template :
  let r1 := apply Okta.adapter 0 only_dev enact_ctx (start w_present t_gone) in
  let r2 := apply Okta.adapter 0 only_dev enact_ctx
              (start (world (snd r1)) t_gone) in
  (exists report1, fst r1 = Returned report1) /\
  Okta.live (world (snd r1)) = [] /\
  exists report2 cd,
    fst r2 = Returned report2 /\
    t_proposed_changes report2 = [cd] /\
    map change_type (proposed_changes cd) = [CREATE; UPDATE; DELETE].
Proof.
  split; [eexists; vm_compute; reflexivity|].
  split; [vm_compute; reflexivity|].
  do 2 eexists. split; [vm_compute; reflexivity|].
  split; vm_compute; reflexivity.
Qed.

Lemma report_holds_the_nonempty_details_witness :
  exists account_changes,
    account_outcomes Okta.adapter 0 only_dev enact_ctx (start w_present t_two)
      = map Returned account_changes /\
    List.length account_changes = List.length (okta_organizations only_dev) /\
    forall d,
      In d (t_proposed_changes
              {| t_resource_id := "dev-eng";
                 t_resource_type := template_type;
                 template_path := "okta/groups/dev/eng.yaml";
                 t_proposed_changes :=
                   [{| account := "dev";
                       resource_id := "dev-eng";
                       current_value := Some (eng "dev" [alice]);
                       new_value :=
                         {| rd_name := "eng";
                            rd_description := "Engineering";
                            rd_members := [alice; bob] |};
                       proposed_changes :=
                         [Okta.update_change (eng "dev" [alice]) "members"
                            (VUsers ["alice"]) (VUsers ["alice"; "bob"])] |}]
              |}) <->
      In d account_changes /\ proposed_changes d <> [].
Proof.
  refine (report_holds_the_nonempty_details Okta.adapter 0 only_dev enact_ctx
            (start w_present t_two) _ _).
  vm_compute. reflexivity.
Defined.

Lemma report_follows_configured_order_witness :
  exists report,
    fst (apply Okta.adapter 0 both detect (start w_present t_two))
      = Returned report /\
    map (fun d => map change_type (proposed_changes d))
        (t_proposed_changes report) = [[UPDATE]; [CREATE]] /\
    exists account_changes,
      Forall2 (fun os d =>
                 fst (_apply_to_account Okta.adapter 0 (fst os) detect (snd os))
                   = Returned d)
              (combine (okta_organizations both)
                       (account_states Okta.adapter 0 detect
                          (okta_organizations both) (start w_present t_two)))
              account_changes /\
      List.length account_changes = 2 /\
      t_proposed_changes report =
        filter (fun d => list_truthy (proposed_changes d)) account_changes.
Proof.
  eexists. split; [vm_compute; reflexivity|]. split; [reflexivity|].
  refine (report_follows_configured_order Okta.adapter 0 both detect
            (start w_present t_two) _ _).
  vm_compute. reflexivity.
Defined.

End Runs.

(** ** More on the reconciler *)

Lemma calls_where_app (p : Call -> bool) (tr1 tr2 : list (list Call)) :
  calls_where p (tr1 ++ tr2) = calls_where p tr1 ++ calls_where p tr2.
Proof. unfold calls_where. rewrite concat_app, filter_app. reflexivity. Qed.

Lemma same_resource_refl (t : OktaGroupTemplate) : same_resource t t.
Proof. repeat split. Qed.

Lemma same_resource_trans (t1 t2 t3 : OktaGroupTemplate) :
  same_resource t1 t2 -> same_resource t2 t3 -> same_resource t1 t3.
Proof.
  unfold same_resource. intros (A1 & B1 & C1 & D1 & E1) (A2 & B2 & C2 & D2 & E2).
  repeat split; congruence.
Qed.

Section ReconcilerRuns.

Context {W : Type}.
Variable A : Adapter W.
Variable now : Z.

(** [_apply_to_account], branch by branch. *)
Lemma apply_to_account_run (org : OktaOrganization) (ctx : ExecutionContext)
    (st : St W) :
  let t := self st in
  let cd0 :=
    {| account := idp_name (properties t);
       resource_id := group_id (properties t);
       current_value := None;
       new_value := apply_resource_dict t org ctx;
       proposed_changes := [] |} in
  let fetched :=
    get_group A (group_id (properties t)) (name (properties t)) org (world st) in
  let st1 :=
    Build_St (snd fetched) t
      (trace st ++
       [[get_group_call (group_id (properties t)) (name (properties t)) org]]) in
  let made :=
    create_group A (name (properties t)) (idp_name (properties t))
      (description (properties t)) org ctx (snd fetched) in
  let st2 :=
    Build_St (snd made) t
      (trace st1 ++
       [[create_group_call (name (properties t)) (idp_name (properties t))
           (description (properties t)) org ctx]]) in
  _apply_to_account A now org ctx st =
    match fst fetched with
    | Raised e => (Raised e, st1)
    | Returned (Some g) =>
        reconcile_fields A now org ctx (set_current_value cd0 (Some g))
          (Some g) st1
    | Returned None =>
        if execute ctx then
          match fst made with
          | Raised e => (Raised e, st2)
          | Returned cg =>
              reconcile_fields A now org ctx
                (set_current_value (extend_changes cd0 [create_change t]) cg)
                cg st2
          end
        else (Returned (extend_changes cd0 [create_change t]), st1)
    end.
Proof.
  intros t cd0 fetched st1 made st2. subst t cd0 fetched st1 made st2.
  unfold _apply_to_account, bind, get_self, await, ret.
  cbn [world self trace].
  destruct (get_group A _ _ org (world st)) as [[[g|]|e] w1];
    cbn [fst snd world self trace]; try reflexivity.
  destruct (execute ctx); cbn [negb world self trace]; [|reflexivity].
  destruct (create_group A _ _ _ org ctx w1) as [[cg|e] w2];
    cbn [fst snd]; reflexivity.
Qed.

(** What one reconciliation leaves behind, whatever the adapter does. *)
Lemma account_footprint (org : OktaOrganization) (ctx : ExecutionContext)
    (st : St W) :
  let t := self st in
  let r := _apply_to_account A now org ctx st in
  same_resource t (self (snd r)) /\
  (forall cd, fst r = Returned cd ->
              account cd = idp_name (properties t) /\
              resource_id cd = group_id (properties t)) /\
  exists new,
    trace (snd r) = trace st ++ new /\
    calls_where is_get_call new =
      [get_group_call (group_id (properties t)) (name (properties t)) org].
Proof.
  intros t r. subst r. rewrite apply_to_account_run. fold t.
  cbv zeta.
  destruct (get_group A _ _ org (world st)) as [[[g|]|e] w1];
    cbn [fst snd].
  - rewrite reconcile_fields_run. cbn [fst snd world self trace].
    split; [repeat split|].
    split.
    + intros cd. destruct (join _); [|discriminate].
      intros H. injection H as <-. split; reflexivity.
    + eexists. rewrite <- !app_assoc. split; [reflexivity|].
      destruct (join _); [destruct (execute ctx && _)|]; reflexivity.
  - destruct (execute ctx) eqn:Hx.
    + destruct (create_group A _ _ _ org ctx w1) as [[cg|e] w2];
        cbn [fst snd].
      * rewrite reconcile_fields_run. cbn [fst snd world self trace].
        split; [repeat split|].
        split.
        -- intros cd. destruct (join _); [|discriminate].
           intros H. injection H as <-.
           cbn [account resource_id extend_changes].
           destruct cg; split; reflexivity.
        -- eexists. rewrite <- !app_assoc. split; [reflexivity|].
           destruct (join _); [destruct (execute ctx && _)|]; reflexivity.
      * cbn [fst snd world self trace].
        split; [apply same_resource_refl|].
        split; [discriminate|].
        eexists. rewrite <- !app_assoc. split; reflexivity.
    + cbn [fst snd world self trace].
      split; [apply same_resource_refl|].
      split; [intros cd H; injection H as <-; split; reflexivity|].
      eexists. split; reflexivity.
  - cbn [fst snd world self trace].
    split; [apply same_resource_refl|].
    split; [discriminate|].
    eexists. split; reflexivity.
Qed.

(** The same over the organizations of a configuration. *)
Lemma accounts_footprint (ctx : ExecutionContext)
    (orgs : list OktaOrganization) (st : St W) :
  let t := self st in
  let rs := run_coroutines
              (map (fun org => _apply_to_account A now org ctx) orgs) st in
  same_resource t (self (snd rs)) /\
  (forall cd, In (Returned cd) (fst rs) ->
              account cd = idp_name (properties t) /\
              resource_id cd = group_id (properties t)) /\
  exists new,
    trace (snd rs) = trace st ++ new /\
    calls_where is_get_call new =
      map (get_group_call (group_id (properties t)) (name (properties t)))
          orgs.
Proof.
  revert st. induction orgs as [|org orgs IH]; intros st;
    cbn [map run_coroutines].
  - cbn [fst snd]. split; [apply same_resource_refl|].
    split; [intros cd []|].
    exists []. rewrite app_nil_r. split; reflexivity.
  - destruct (account_footprint org ctx st) as (S1 & C1 & new1 & T1 & G1).
    destruct (_apply_to_account A now org ctx st) as [o st1].
    cbn [fst snd] in S1, C1, T1.
    destruct (IH st1) as (S2 & C2 & new2 & T2 & G2).
    destruct (run_coroutines _ st1) as [os st2].
    cbn [fst snd] in *.
    pose proof S1 as (Eid & Ename & Eidp & _ & _).
    rewrite Eid, Ename in G2. rewrite Eid, Eidp in C2.
    split; [eapply same_resource_trans; eauto|].
    split.
    + intros cd [H|H]; [apply C1; assumption|apply C2; assumption].
    + exists (new1 ++ new2). rewrite T2, T1, app_assoc.
      split; [reflexivity|].
      rewrite !calls_where_app, G1, G2. reflexivity.
Qed.

Lemma apply_state (config : Config) (ctx : ExecutionContext) (st : St W) :
  snd (apply A now config ctx st) =
  snd (run_coroutines
         (map (fun org => _apply_to_account A now org ctx)
              (okta_organizations config)) st).
Proof.
  unfold apply, bind, get_self, gather_coroutines, ret.
  destruct (run_coroutines _ st) as [outs st'].
  destruct (join outs); reflexivity.
Qed.

(** X1. [apply] fetches the group once for every configured
    organization, in the configured order, each time under the
    template's own [group_id] and [name], in either mode and whatever
    the adapter answers. *)
Theorem apply_fetches_once_per_organization (config : Config)
    (ctx : ExecutionContext) (w : W) (t : OktaGroupTemplate) :
  calls_where is_get_call (trace (snd (apply A now config ctx (start w t)))) =
  map (get_group_call (group_id (properties t)) (name (properties t)))
      (okta_organizations config).
Proof.
  rewrite apply_state.
  destruct (accounts_footprint ctx (okta_organizations config) (start w t))
    as (_ & _ & new & T & G).
  rewrite T. exact G.
Qed.

(** X2. Every entry of the report that [apply] returns carries the
    template's [idp_name] as its account and the template's [group_id]
    as its resource, whichever organization it was computed for. *)
Theorem report_entries_name_the_template (config : Config)
    (ctx : ExecutionContext) (w : W) (t : OktaGroupTemplate)
    (report : TemplateChangeDetails) :
  fst (apply A now config ctx (start w t)) = Returned report ->
  Forall (fun d => account d = idp_name (properties t) /\
                   resource_id d = group_id (properties t))
         (t_proposed_changes report).
Proof.
  rewrite apply_unfold.
  destruct (join (account_outcomes A now config ctx (start w t)))
    as [account_changes|e] eqn:J; [|discriminate].
  intros H. injection H as <-. cbn [t_proposed_changes].
  apply join_returned in J.
  destruct (accounts_footprint ctx (okta_organizations config) (start w t))
    as (_ & C & _).
  apply Forall_forall. intros d Hd. apply filter_In in Hd as [Hd _].
  apply C. unfold account_outcomes in J. rewrite J.
  apply in_map. exact Hd.
Qed.

(** X4. [create_group] is called at most once in a reconciliation, and
    exactly when [get_group] found no group and [execute] is true; it
    is given the template's name, [idp_name] and description. *)
Theorem create_called_only_for_absent_group_in_apply_mode
    (org : OktaOrganization) (ctx : ExecutionContext) (w : W)
    (t : OktaGroupTemplate) :
  calls_where is_create_call
    (trace (snd (_apply_to_account A now org ctx (start w t)))) =
  match fst (get_group A (group_id (properties t)) (name (properties t))
               org w) with
  | Returned None =>
      if execute ctx
      then [create_group_call (name (properties t)) (idp_name (properties t))
              (description (properties t)) org ctx]
      else []
  | _ => []
  end.
Proof.
  rewrite apply_to_account_run. cbn [start world self trace]. cbv zeta.
  destruct (get_group A _ _ org w) as [[[g|]|e] w1]; cbn [fst snd].
  - rewrite reconcile_fields_run. cbn [snd trace].
    destruct (join _); [destruct (execute ctx && _)|]; reflexivity.
  - destruct (execute ctx) eqn:Hx; [|reflexivity].
    destruct (create_group A _ _ _ org ctx w1) as [[cg|e] w2];
      cbn [fst snd]; [|reflexivity].
    rewrite reconcile_fields_run. cbn [snd trace].
    destruct (join _); [destruct (execute ctx && _)|]; reflexivity.
  - reflexivity.
Qed.

(** X5. When [get_group] raises, the reconciliation raises the same
    error: it has made no other call, returns no details and leaves the
    template as it was. *)
Theorem failed_fetch_raises (org : OktaOrganization) (ctx : ExecutionContext)
    (w w1 : W) (t : OktaGroupTemplate) (e : Error) :
  get_group A (group_id (properties t)) (name (properties t)) org w
    = (Raised e, w1) ->
  _apply_to_account A now org ctx (start w t) =
    (Raised e,
     Build_St w1 t
       [[get_group_call (group_id (properties t)) (name (properties t)) org]]).
Proof.
  intros H. rewrite apply_to_account_run. cbn [start world self trace].
  cbv zeta. rewrite H. reflexivity.
Qed.

(** The four helpers, when each of them returns. *)
Lemma field_tasks_returned (t : OktaGroupTemplate) (cg : option Group)
    (org : OktaOrganization) (ctx : ExecutionContext)
    (w1 w2 w3 w4 w5 : W) (l1 l2 l3 l4 : list ProposedChange) :
  update_group_name A cg (name (properties t)) org ctx w1 = (Returned l1, w2) ->
  update_group_description A cg (description (properties t)) org ctx w2
    = (Returned l2, w3) ->
  update_group_members A cg (members (properties t)) org ctx w3
    = (Returned l3, w4) ->
  maybe_delete_group A (deleted t) cg org ctx w4 = (Returned l4, w5) ->
  run_tasks (map snd (field_tasks A t cg org ctx)) w1 =
    ([Returned l1; Returned l2; Returned l3; Returned l4], w5).
Proof.
  intros H1 H2 H3 H4. unfold field_tasks. cbn [map snd run_tasks].
  rewrite H1, H2, H3, H4. reflexivity.
Qed.

(** X6. When the group exists and the four helpers return, the details
    hold the fetched group as current value and, as proposed changes,
    what the helpers returned, in the order name, description, members,
    delete; the reconciler adds no entry of its own.  The member helper
    is given the members that have not expired, the delete helper the
    template's lifecycle state, and each helper acts on the provider as
    its predecessor left it. *)
Theorem present_group_changes_are_the_helpers_changes
    (org : OktaOrganization) (ctx : ExecutionContext)
    (t : OktaGroupTemplate) (g : Group)
    (w w1 w2 w3 w4 w5 : W) (l1 l2 l3 l4 : list ProposedChange) :
  get_group A (group_id (properties t)) (name (properties t)) org w
    = (Returned (Some g), w1) ->
  update_group_name A (Some g) (name (properties t)) org ctx w1
    = (Returned l1, w2) ->
  update_group_description A (Some g) (description (properties t)) org ctx w2
    = (Returned l2, w3) ->
  update_group_members A (Some g)
    (filter (fun u => negb (user_expired now u)) (members (properties t)))
    org ctx w3 = (Returned l3, w4) ->
  maybe_delete_group A (evaluateLifecycle now (expires_at t) (deleted t))
    (Some g) org ctx w4 = (Returned l4, w5) ->
  exists cd st',
    _apply_to_account A now org ctx (start w t) = (Returned cd, st') /\
    proposed_changes cd = l1 ++ l2 ++ l3 ++ l4 /\
    current_value cd = Some g /\
    world st' = w5.
Proof.
  intros Hg H1 H2 H3 H4.
  rewrite apply_to_account_run. cbn [start world self trace]. cbv zeta.
  rewrite Hg. cbn [fst snd]. rewrite reconcile_fields_run.
  cbn [world self trace].
  rewrite (field_tasks_returned (remove_expired now ctx t) (Some g) org ctx
             w1 w2 w3 w4 w5 l1 l2 l3 l4 H1 H2 H3 H4).
  cbn [fst snd join]. do 2 eexists. split; [reflexivity|].
  cbn [proposed_changes current_value world extend_changes set_current_value
       List.concat app].
  rewrite app_nil_r. repeat split.
Qed.

(** X7. When the group is absent, [execute] is true, [create_group]
    returns and the four helpers return, the helpers are given what
    [create_group] returned, and the proposed changes are the [CREATE]
    entry followed by what the helpers returned, in the same order. *)
Theorem created_group_changes_follow_the_create_entry
    (org : OktaOrganization) (ctx : ExecutionContext)
    (t : OktaGroupTemplate) (cg : option Group)
    (w w1 w2 w3 w4 w5 w6 : W) (l1 l2 l3 l4 : list ProposedChange) :
  execute ctx = true ->
  get_group A (group_id (properties t)) (name (properties t)) org w
    = (Returned None, w1) ->
  create_group A (name (properties t)) (idp_name (properties t))
    (description (properties t)) org ctx w1 = (Returned cg, w2) ->
  update_group_name A cg (name (properties t)) org ctx w2 = (Returned l1, w3) ->
  update_group_description A cg (description (properties t)) org ctx w3
    = (Returned l2, w4) ->
  update_group_members A cg
    (filter (fun u => negb (user_expired now u)) (members (properties t)))
    org ctx w4 = (Returned l3, w5) ->
  maybe_delete_group A (evaluateLifecycle now (expires_at t) (deleted t))
    cg org ctx w5 = (Returned l4, w6) ->
  exists cd st',
    _apply_to_account A now org ctx (start w t) = (Returned cd, st') /\
    proposed_changes cd = create_change t :: l1 ++ l2 ++ l3 ++ l4 /\
    current_value cd = cg /\
    world st' = w6.
Proof.
  intros Hx Hg Hc H1 H2 H3 H4.
  rewrite apply_to_account_run. cbn [start world self trace]. cbv zeta.
  rewrite Hg. cbn [fst snd]. rewrite Hx, Hc. cbn [fst snd].
  rewrite reconcile_fields_run. cbn [world self trace].
  rewrite (field_tasks_returned (remove_expired now ctx t) cg org ctx
             w2 w3 w4 w5 w6 l1 l2 l3 l4 H1 H2 H3 H4).
  cbn [fst snd join]. do 2 eexists. split; [reflexivity|].
  cbn [proposed_changes world extend_changes List.concat app].
  rewrite set_current_value_changes. cbn [proposed_changes app].
  rewrite app_nil_r. split; [reflexivity|].
  split; [destruct cg; reflexivity|reflexivity].
Qed.

(** X8. Reconciling the template imported from a group against a
    provider that still returns that group: the group is fetched under
    its own identifier and name, nothing is created, the helpers are
    asked to bring the group to its own name, description and
    unexpired members, the delete helper is told the template is not
    deleted, and the template file is not removed. *)
Theorem imported_template_is_reconciled_against_itself
    (org : OktaOrganization) (ctx : ExecutionContext) (g : Group) (w w1 : W) :
  get_group A (g_group_id g) (g_name g) org w = (Returned (Some g), w1) ->
  trace (snd (_apply_to_account A now org ctx (start w (get_group_template g))))
  = [[get_group_call (g_group_id g) (g_name g) org];
     [remove_expired_resources_call ctx];
     [update_group_name_call (Some g) (g_name g) org ctx;
      update_group_description_call (Some g) (g_description g) org ctx;
      update_group_members_call (Some g)
        (filter (fun u => negb (user_expired now u)) (g_members g)) org ctx;
      maybe_delete_group_call false (Some g) org ctx]].
Proof.
  intros Hg. rewrite apply_to_account_run.
  cbn [start world self trace get_group_template properties group_id name].
  cbv zeta. rewrite Hg. cbn [fst snd]. rewrite reconcile_fields_run.
  cbn [snd trace]. destruct (join _).
  - rewrite andb_false_r. reflexivity.
  - reflexivity.
Qed.

(** X10. As soon as the group is known, because [get_group] found it or
    because [create_group] returned, the three field helpers and the
    delete helper are each called exactly once, in that order, in
    either mode and whether or not one of them raises; in every other
    case none of them is called. *)
Theorem helpers_called_once_when_the_group_is_known
    (org : OktaOrganization) (ctx : ExecutionContext) (w : W)
    (t : OktaGroupTemplate) :
  let fetched :=
    get_group A (group_id (properties t)) (name (properties t)) org w in
  let made :=
    create_group A (name (properties t)) (idp_name (properties t))
      (description (properties t)) org ctx (snd fetched) in
  let helpers cg :=
    [update_group_name_call cg (name (properties t)) org ctx;
     update_group_description_call cg (description (properties t)) org ctx;
     update_group_members_call cg
       (filter (fun u => negb (user_expired now u)) (members (properties t)))
       org ctx;
     maybe_delete_group_call
       (evaluateLifecycle now (expires_at t) (deleted t)) cg org ctx] in
  calls_where (fun c => is_field_update_call c || is_delete_call c)
    (trace (snd (_apply_to_account A now org ctx (start w t)))) =
  match fst fetched with
  | Returned (Some g) => helpers (Some g)
  | Returned None =>
      if execute ctx then
        match fst made with
        | Returned cg => helpers cg
        | Raised _ => []
        end
      else []
  | Raised _ => []
  end.
Proof.
  intros fetched made helpers. subst fetched made helpers.
  rewrite apply_to_account_run. cbn [start world self trace]. cbv zeta.
  destruct (get_group A _ _ org w) as [[[g|]|e] w1]; cbn [fst snd].
  - rewrite reconcile_fields_run. cbn [snd trace].
    destruct (join _); [destruct (execute ctx && _)|]; reflexivity.
  - destruct (execute ctx) eqn:Hx; [|reflexivity].
    destruct (create_group A _ _ _ org ctx w1) as [[cg|e] w2];
      cbn [fst snd]; [|reflexivity].
    rewrite reconcile_fields_run. cbn [snd trace].
    destruct (join _); [destruct (execute ctx && _)|]; reflexivity.
  - reflexivity.
Qed.

Lemma join_returns_iff {X : Type} (outs : list (Outcome X)) :
  (exists l, join outs = Returned l) <-> forallb is_returned outs = true.
Proof.
  induction outs as [|o outs IH]; cbn.
  - split; eauto.
  - destruct o as [a|e]; cbn.
    + rewrite <- IH. destruct (join outs) as [l|e']; split.
      * eauto.
      * eauto.
      * intros [l H]. discriminate H.
      * intros [l H]. discriminate H.
    + split; [intros [l H]; discriminate H|discriminate].
Qed.

(** X11. [apply] returns a report exactly when the reconciliation of
    every configured organization returned; the report then carries the
    template's [group_id], the template type and the template's file
    path. *)
Theorem apply_returns_iff_every_organization_returns (config : Config)
    (ctx : ExecutionContext) (w : W) (t : OktaGroupTemplate) :
  (exists report,
      fst (apply A now config ctx (start w t)) = Returned report /\
      t_resource_id report = group_id (properties t) /\
      t_resource_type report = template_type /\
      template_path report = file_path t)
  <-> forallb is_returned (account_outcomes A now config ctx (start w t)) = true.
Proof.
  rewrite apply_unfold, <- join_returns_iff.
  destruct (join (account_outcomes A now config ctx (start w t))) as [l|e].
  - split; [eauto|]. intros _. eexists. repeat split.
  - split.
    + intros (report & H & _). discriminate H.
    + intros [l H]. discriminate H.
Qed.

End ReconcilerRuns.

(** ** File paths of imported groups *)

Lemma string_app_inv_head (s a b : string) :
  (s ++ a = s ++ b)%string -> a = b.
Proof.
  induction s as [|c s IH]; cbn; intros H; [assumption|].
  injection H as H. auto.
Qed.

Lemma string_app_length (a b : string) :
  String.length (a ++ b)%string = String.length a + String.length b.
Proof. induction a as [|c a IH]; cbn; congruence. Qed.

Lemma string_app_inv_tail (a b s : string) :
  (a ++ s = b ++ s)%string -> a = b.
Proof.
  revert b. induction a as [|c a IH]; intros [|d b] H; cbn in H.
  - reflexivity.
  - apply (f_equal String.length) in H. cbn in H.
    rewrite string_app_length in H. lia.
  - apply (f_equal String.length) in H. cbn in H.
    rewrite string_app_length in H. lia.
  - injection H as -> H. f_equal. auto.
Qed.

(** Two strings cut at their first ["/"]. *)
Lemma cut_at_slash (a b x y : string) :
  no_slash a = true -> no_slash b = true ->
  (a ++ String slash x = b ++ String slash y)%string -> a = b /\ x = y.
Proof.
  revert b. induction a as [|c a IH]; intros [|d b] Ha Hb H; cbn in *.
  - injection H as H. auto.
  - injection H as <- _. rewrite Ascii.eqb_refl in Hb. discriminate.
  - injection H as -> _. rewrite Ascii.eqb_refl in Ha. discriminate.
  - injection H as -> H.
    apply andb_true_iff in Ha as [_ Ha]. apply andb_true_iff in Hb as [_ Hb].
    destruct (IH b Ha Hb H) as [-> ->]. auto.
Qed.

(** X9. Two groups whose [idp_name] holds no ["/"] are imported to the
    same file only if they have the same [idp_name] and the same name. *)
Theorem imported_file_path_determines_the_group (g1 g2 : Group) :
  no_slash (g_idp_name g1) = true ->
  no_slash (g_idp_name g2) = true ->
  file_path (get_group_template g1) = file_path (get_group_template g2) ->
  g_idp_name g1 = g_idp_name g2 /\ g_name g1 = g_name g2.
Proof.
  intros N1 N2 H. cbn [get_group_template file_path] in H.
  apply string_app_inv_head in H.
  apply (cut_at_slash _ _ _ _ N1 N2) in H as [Hi Hn].
  split; [assumption|]. exact (string_app_inv_tail _ _ _ Hn).
Qed.

(** ** More runs on sample data *)

Module MoreRuns.

Import Sample Imported.

Lemma report_entries_name_the_template_witness :
  exists report,
    fst (apply Okta.adapter 0 both enact_ctx (start w_both t_two))
      = Returned report /\
    List.length (t_proposed_changes report) = 2 /\
    Forall (fun d => account d = "dev" /\ resource_id d = "dev-eng")
           (t_proposed_changes report).
Proof.
  eexists. split; [vm_compute; reflexivity|]. split; [reflexivity|].
  refine (report_entries_name_the_template Okta.adapter 0 both enact_ctx
            w_both t_two _ _).
  vm_compute. reflexivity.
Defined.

Lemma failed_fetch_raises_witness :
  _apply_to_account Okta.adapter 0 dev detect (start w_down t_one) =
    (Raised "ProviderError",
     Build_St
       {| Okta.live := [];
          Okta.failing := [("dev", Okta.fetch_op)];
          Okta.oplog := [Okta.op_fetch "dev" "dev-eng" "eng"] |}
       t_one [[get_group_call "dev-eng" "eng" dev]]).
Proof.
  refine (failed_fetch_raises Okta.adapter 0 dev detect w_down _ t_one
            "ProviderError" _).
  reflexivity.
Defined.

Lemma present_group_changes_are_the_helpers_changes_witness :
  exists cd st',
    _apply_to_account Okta.adapter 0 dev enact_ctx (start w_present t_two)
      = (Returned cd, st') /\
    proposed_changes cd =
      [] ++ [] ++
      [Okta.update_change (eng "dev" [alice]) "members"
         (VUsers ["alice"]) (VUsers ["alice"; "bob"])] ++ [] /\
    current_value cd = Some (eng "dev" [alice]) /\
    world st' =
      {| Okta.live := [("dev", eng "dev" [alice; bob])];
         Okta.failing := [];
         Okta.oplog := [Okta.op_fetch "dev" "dev-eng" "eng";
                        Okta.op_update_members "dev" "dev-eng"
                          ["alice"; "bob"]] |}.
Proof.
  refine (present_group_changes_are_the_helpers_changes Okta.adapter 0 dev
            enact_ctx t_two (eng "dev" [alice]) w_present _ _ _ _ _
            _ _ _ _ _ _ _ _ _); reflexivity.
Defined.

Lemma created_group_changes_follow_the_create_entry_witness :
  exists cd st',
    _apply_to_account Okta.adapter 0 dev enact_ctx (start empty_world t_one)
      = (Returned cd, st') /\
    proposed_changes cd =
      create_change t_one ::
      [] ++ [] ++
      [Okta.update_change (eng "dev" []) "members" (VUsers [])
         (VUsers ["alice"])] ++ [] /\
    current_value cd = Some (eng "dev" []) /\
    world st' =
      {| Okta.live := [("dev", eng "dev" [alice])];
         Okta.failing := [];
         Okta.oplog := [Okta.op_fetch "dev" "dev-eng" "eng";
                        Okta.op_create "dev" (eng "dev" []);
                        Okta.op_update_members "dev" "dev-eng" ["alice"]] |}.
Proof.
  refine (created_group_changes_follow_the_create_entry Okta.adapter 0 dev
            enact_ctx t_one (Some (eng "dev" [])) empty_world _ _ _ _ _ _
            _ _ _ _ _ _ _ _ _ _ _); reflexivity.
Defined.

Lemma imported_template_is_reconciled_against_itself_witness :
  trace (snd (_apply_to_account Okta.adapter 0 dev detect
                (start w_ops (get_group_template ops))))
  = [[get_group_call "dev-eng" "eng" dev];
     [remove_expired_resources_call detect];
     [update_group_name_call (Some ops) "eng" dev detect;
      update_group_description_call (Some ops) "Engineering" dev detect;
      update_group_members_call (Some ops) [alice; bob] dev detect;
      maybe_delete_group_call false (Some ops) dev detect]].
Proof.
  refine (imported_template_is_reconciled_against_itself Okta.adapter 0 dev
            detect ops w_ops _ _).
  reflexivity.
Defined.

Lemma imported_file_path_determines_the_group_witness :
  file_path (get_group_template (eng "dev" [alice]))
    = file_path (get_group_template (eng "dev" [])) /\
  g_idp_name (eng "dev" [alice]) = g_idp_name (eng "dev" []) /\
  g_name (eng "dev" [alice]) = g_name (eng "dev" []).
Proof.
  split; [reflexivity|].
  refine (imported_file_path_determines_the_group (eng "dev" [alice])
            (eng "dev" []) _ _ _); reflexivity.
Defined.

Lemma apply_returns_iff_every_organization_returns_witness :
  forallb is_returned
    (account_outcomes Okta.adapter 0 both enact_ctx (start w_both t_two))
    = true /\
  exists report,
    fst (apply Okta.adapter 0 both enact_ctx (start w_both t_two))
      = Returned report /\
    t_resource_id report = "dev-eng" /\
    t_resource_type report = template_type /\
    template_path report = "okta/groups/dev/eng.yaml".
Proof.
  assert (forallb is_returned
            (account_outcomes Okta.adapter 0 both enact_ctx
               (start w_both t_two)) = true) as H
    by (vm_compute; reflexivity).
  split; [exact H|].
  exact (proj2 (apply_returns_iff_every_organization_returns Okta.adapter 0
                  both enact_ctx w_both t_two) H).
Defined.

End MoreRuns.
